(** * ServiceExample_API: request wrapper, demo CRUD service, reachability checker

    A shallow embedding of the three services of the plugin

    - [ApiServiceWrapper]   (services/apiService.ts)
    - [DemoApiService]      (services/demoApiService.ts)
    - [ExternalApiService]  (services/externalApiService.ts)

    together with the properties of their error handling.

    Asynchronous methods are functions in a state-and-exception monad over
    a [World]: the clock read by [Date.now()], the two singleton services,
    the behaviour of the network seen by [fetch], and a ghost trace of the
    calls that leave each layer.  Console output is not modelled. *)

From Stdlib Require Import String Ascii List ZArith Lia Bool DecimalString.
Import ListNotations.

Local Open Scope string_scope.
Local Open Scope Z_scope.

#[local] Set Warnings "-register-all".

(** ** JavaScript values

    Values typed [any] in the source (payloads, response bodies, options).
    Numbers are the integers; objects are association lists of their own
    properties, the first binding of a key being the property. *)

Inductive JsVal : Type :=
| JUndefined
| JNull
| JBool (b : bool)
| JNum (n : Z)
| JStr (s : string)
| JObj (fields : list (string * JsVal)).

(** Truthiness, as used by [||], [!] and [if]. *)
Definition truthy (v : JsVal) : bool :=
  match v with
  | JUndefined | JNull => false
  | JBool b => b
  | JNum n => negb (n =? 0)
  | JStr s => negb (String.eqb s "")
  | JObj _ => true
  end.

Fixpoint lookupField (k : string) (fs : list (string * JsVal)) : JsVal :=
  match fs with
  | [] => JUndefined
  | (k', v) :: rest => if String.eqb k k' then v else lookupField k rest
  end.

(** [v?.k]: reading a property through optional chaining. *)
Definition getProp (v : JsVal) (k : string) : JsVal :=
  match v with
  | JObj fs => lookupField k fs
  | _ => JUndefined
  end.

(** [a || b] *)
Definition jsOr (a b : JsVal) : JsVal := if truthy a then a else b.

(** ** Strings

    A string is the sequence of its code units, here those below 256. *)

(** [s.includes(sub)] *)
Fixpoint includes (s sub : string) : bool :=
  if String.prefix sub s then true
  else match s with
       | EmptyString => false
       | String _ s' => includes s' sub
       end.

(** White space and line terminators removed by [String.prototype.trim],
    among the code units below 256: TAB, LF, VT, FF, CR, SP, NBSP. *)
Definition isWhiteSpace (c : ascii) : bool :=
  let n := nat_of_ascii c in
  (Nat.eqb n 9 || Nat.eqb n 10 || Nat.eqb n 11 || Nat.eqb n 12
   || Nat.eqb n 13 || Nat.eqb n 32 || Nat.eqb n 160)%bool.

Fixpoint trimStart (s : string) : string :=
  match s with
  | EmptyString => EmptyString
  | String c s' => if isWhiteSpace c then trimStart s' else s
  end.

Fixpoint trimEnd (s : string) : string :=
  match s with
  | EmptyString => EmptyString
  | String c s' =>
      match trimEnd s' with
      | EmptyString => if isWhiteSpace c then EmptyString else String c EmptyString
      | t => String c t
      end
  end.

(** [s.trim()] *)
Definition trim (s : string) : string := trimEnd (trimStart s).

(** [!s] for a string [s]. *)
Definition isEmptyString (s : string) : bool := String.eqb s "".

(** [s.length] *)
Definition strLength (s : string) : Z := Z.of_nat (String.length s).

(** Template-literal rendering of an integer number. *)
Definition numToString (n : Z) : string :=
  NilZero.string_of_int (Z.to_int n).

(** ** types/api.ts and types/demo.ts *)

Record ApiResponse : Type := mkApiResponse {
  ar_data : JsVal;
  ar_status : Z;
  ar_responseTime : Z;
  ar_timestamp : Z
}.

(** The [details] object attached to an [ApiError] by [handleApiError]. *)
Record ErrorDetails : Type := mkErrorDetails {
  ed_responseData : option JsVal;
  ed_responseTime : Z
}.

Record ApiError : Type := mkApiError {
  ae_message : string;
  ae_status : option Z;
  ae_code : option string;
  ae_details : option ErrorDetails
}.

Inductive CheckStatus : Type := online | offline | error | checking.

Definition CheckStatus_eqb (a b : CheckStatus) : bool :=
  match a, b with
  | online, online | offline, offline | error, error | checking, checking => true
  | _, _ => false
  end.

Record ApiCheckResult : Type := mkApiCheckResult {
  cr_url : string;
  cr_status : CheckStatus;
  cr_responseTime : option Z;
  cr_timestamp : Z;
  cr_statusCode : option Z;
  cr_error : option string
}.

(** [CreateItemRequest | UpdateItemRequest]; [None] is a property that is
    absent or [undefined]. *)
Record ItemRequest : Type := mkItemRequest {
  name : option string;
  description : option string
}.

Record RequestTiming : Type := mkTiming {
  startTime : Z;
  endTime : Z;
  duration : Z
}.

Record OperationResult (T : Type) : Type := mkOperationResult {
  success : bool;
  data : option T;
  error_text : option string;
  timing : option RequestTiming
}.

Arguments mkOperationResult {T} _ _ _ _.
Arguments success {T} _.
Arguments data {T} _.
Arguments error_text {T} _.
Arguments timing {T} _.

Record ValidationResult : Type := mkValidation {
  isValid : bool;
  errors : list string
}.

(** ** What is raised

    [RaisedError] is the shape [handleApiError] inspects on whatever the
    transport rejected with: [error?.message], [error?.code] and
    [error?.response] with its [status] and [data]. *)

Record HttpResponse : Type := mkHttpResponse {
  resp_status : Z;
  resp_data : JsVal
}.

Record RaisedError : Type := mkRaisedError {
  re_message : option string;
  re_code : option string;
  re_response : option HttpResponse
}.

(** A value caught by a [catch] clause of the services: an instance of
    [Error] with its [name] and [message], the plain [ApiError] object the
    wrapper throws, or any other value. *)
Inductive Thrown : Type :=
| ThrownError (ename emessage : string)
| ThrownApiError (e : ApiError)
| ThrownOther (v : JsVal).

(** [t instanceof Error] *)
Definition instanceofError (t : Thrown) : bool :=
  match t with
  | ThrownError _ _ => true
  | _ => false
  end.

(** [error instanceof Error ? error.message : fallback] *)
Definition messageOr (t : Thrown) (fallback : string) : string :=
  match t with
  | ThrownError _ m => m
  | _ => fallback
  end.

(** ** The transport, the network and the world *)

Inductive Verb : Type := GET | POST | PUT | DELETE.

(** One call of a verb method of the bridge.  [tc_data] is [None] for
    [get] and [delete], which take [(path, options)] only. *)
Record TransportCall : Type := mkCall {
  tc_verb : Verb;
  tc_path : string;
  tc_data : option JsVal;
  tc_options : JsVal
}.

(** How a call settles, and after how many milliseconds. *)
Inductive Outcome : Type :=
| Resolved (raw : JsVal) (elapsed : Z)
| Rejected (e : RaisedError) (elapsed : Z).

(** The host-supplied bridge: its answer to a call, given the calls it has
    served before. *)
Definition Transport : Type := list TransportCall -> TransportCall -> Outcome.

(** What the network does with one probe of the external site. *)
Inductive NetBehaviour : Type :=
| NetResponds (status : Z) (latency : Z)
| NetFails (t : Thrown) (latency : Z)
| NetHangs.

Inductive FetchOutcome : Type :=
| FetchResolved (status : Z)
| FetchRejected (t : Thrown).

(** Ghost trace: calls entering the wrapper, calls reaching the bridge,
    probes sent by [fetch], and timer waits. *)
Inductive Event : Type :=
| EvWrapper (v : Verb) (path : string)
| EvTransport (c : TransportCall)
| EvFetch (url : string)
| EvSleep (ms : Z).

Record ApiServiceWrapper : Type := mkWrapper {
  apiService : option Transport;
  isConnected : bool;
  requestCount : nat
}.

Record ExternalApiService : Type := mkExternal {
  checkCount : nat
}.

Record World : Type := mkWorld {
  now : Z;
  trace : list Event;
  apiServiceWrapper : ApiServiceWrapper;
  externalApiService : ExternalApiService;
  network : nat -> NetBehaviour
}.

Fixpoint transportCalls (tr : list Event) : list TransportCall :=
  match tr with
  | [] => []
  | EvTransport c :: rest => c :: transportCalls rest
  | _ :: rest => transportCalls rest
  end.

Fixpoint wrapperCalls (tr : list Event) : list (Verb * string) :=
  match tr with
  | [] => []
  | EvWrapper v p :: rest => (v, p) :: wrapperCalls rest
  | _ :: rest => wrapperCalls rest
  end.

Fixpoint fetchCount (tr : list Event) : nat :=
  match tr with
  | [] => 0%nat
  | EvFetch _ :: rest => S (fetchCount rest)
  | _ :: rest => fetchCount rest
  end.

(** ** The monad of asynchronous methods *)

Inductive Result (A : Type) : Type :=
| Ok (a : A)
| Throw (t : Thrown).

Arguments Ok {A} _.
Arguments Throw {A} _.

Definition M (A : Type) : Type := World -> Result A * World.

Definition ret {A} (a : A) : M A := fun w => (Ok a, w).

Definition bind {A B} (m : M A) (f : A -> M B) : M B :=
  fun w =>
    match m w with
    | (Ok a, w') => f a w'
    | (Throw t, w') => (Throw t, w')
    end.

Definition throw {A} (t : Thrown) : M A := fun w => (Throw t, w).

(** [try { body } catch (error) { handler error }] *)
Definition tryCatch {A} (body : M A) (handler : Thrown -> M A) : M A :=
  fun w =>
    match body w with
    | (Ok a, w') => (Ok a, w')
    | (Throw t, w') => handler t w'
    end.

Declare Scope js_scope.
Delimit Scope js_scope with js.
Notation "'do' x <- m ; k" := (bind m (fun x => k))
  (at level 10, x name, m at level 100, k at level 200) : js_scope.
Notation "m ;; k" := (bind m (fun _ => k))
  (at level 100, k at level 200, right associativity) : js_scope.
Local Open Scope js_scope.

(** [Date.now()] *)
Definition dateNow : M Z := fun w => (Ok (now w), w).

Definition advance (ms : Z) (w : World) : World :=
  mkWorld (now w + ms) (trace w) (apiServiceWrapper w) (externalApiService w) (network w).

Definition logEvent (e : Event) (w : World) : World :=
  mkWorld (now w) (trace w ++ [e]) (apiServiceWrapper w) (externalApiService w) (network w).

Definition setWrapper (s : ApiServiceWrapper) (w : World) : World :=
  mkWorld (now w) (trace w) s (externalApiService w) (network w).

Definition setExternal (s : ExternalApiService) (w : World) : World :=
  mkWorld (now w) (trace w) (apiServiceWrapper w) s (network w).

Definition emit (e : Event) : M unit := fun w => (Ok tt, logEvent e w).

(** [v.k] on a value that must not be nullish: a [TypeError] otherwise. *)
Definition readProp (v : JsVal) (k : string) : M JsVal :=
  match v with
  | JUndefined =>
      throw (ThrownError "TypeError"
               ("Cannot read properties of undefined (reading '" ++ k ++ "')"))
  | JNull =>
      throw (ThrownError "TypeError"
               ("Cannot read properties of null (reading '" ++ k ++ "')"))
  | _ => ret (getProp v k)
  end.

(** ** services/apiService.ts: [ApiServiceWrapper] *)

(** The singleton as constructed at load time. *)
Definition newApiServiceWrapper : ApiServiceWrapper := mkWrapper None false 0.

(** [setServiceBridge(service)]; [None] is a [null] argument. *)
Definition setServiceBridge (service : option Transport) (w : World) : World :=
  setWrapper (mkWrapper service true (requestCount (apiServiceWrapper w))) w.

Definition isServiceConnected (s : ApiServiceWrapper) : bool :=
  isConnected s && match apiService s with Some _ => true | None => false end.

(** [getStats()] *)
Definition getStats (s : ApiServiceWrapper) : nat * bool :=
  (requestCount s, isConnected s).

(** [error?.message || 'An unknown error occurred'] and the other three
    fields as given. *)
Definition createApiError (e : RaisedError) (status : option Z)
    (code : option string) (details : option ErrorDetails) : ApiError :=
  mkApiError
    (match re_message e with
     | Some m => if String.eqb m "" then "An unknown error occurred" else m
     | None => "An unknown error occurred"
     end)
    status code details.

(** [responseData?.detail || responseData?.message] *)
Definition serverMessage (responseData : JsVal) : JsVal :=
  jsOr (getProp responseData "detail") (getProp responseData "message").

Definition getErrorMessage (status : Z) (responseData : JsVal) : JsVal :=
  let serverMessage := serverMessage responseData in
  if status =? 400 then jsOr serverMessage (JStr "Bad request - please check your input")
  else if status =? 401 then JStr "Authentication required - please log in"
  else if status =? 403 then JStr "Access denied - you don't have permission for this action"
  else if status =? 404 then jsOr serverMessage (JStr "Resource not found")
  else if status =? 422 then jsOr serverMessage (JStr "Validation error - please check your input")
  else if status =? 500 then JStr "Server error - please try again later"
  else if status =? 503 then JStr "Service unavailable - please try again later"
  else jsOr serverMessage (JStr ("HTTP " ++ numToString status ++ " error occurred")).

Definition getErrorCode (status : Z) : string :=
  if status =? 400 then "BAD_REQUEST"
  else if status =? 401 then "UNAUTHORIZED"
  else if status =? 403 then "FORBIDDEN"
  else if status =? 404 then "NOT_FOUND"
  else if status =? 422 then "VALIDATION_ERROR"
  else if status =? 500 then "INTERNAL_SERVER_ERROR"
  else if status =? 503 then "SERVICE_UNAVAILABLE"
  else "HTTP_ERROR".

(** [error?.code === 'ERR_NETWORK'] *)
Definition isNetworkCode (e : RaisedError) : bool :=
  match re_code e with
  | Some c => String.eqb c "ERR_NETWORK"
  | None => false
  end.

(** [error?.message?.includes('timeout')] *)
Definition mentionsTimeout (e : RaisedError) : bool :=
  match re_message e with
  | Some m => includes m "timeout"
  | None => false
  end.

(** The local [message] of the first branch is computed and then goes
    unused, as in the source: [createApiError] reads [error.message]. *)
Definition handleApiError (e : RaisedError) (responseTime : Z) : ApiError :=
  match re_response e with
  | Some response =>
      let status := resp_status response in
      let message := getErrorMessage status (resp_data response) in
      createApiError e (Some status) (Some (getErrorCode status))
        (Some (mkErrorDetails (Some (resp_data response)) responseTime))
  | None =>
      if isNetworkCode e then
        createApiError e (Some 0) (Some "NETWORK_ERROR")
          (Some (mkErrorDetails None responseTime))
      else if mentionsTimeout e then
        createApiError e (Some 408) (Some "TIMEOUT")
          (Some (mkErrorDetails None responseTime))
      else
        createApiError e (Some 500) (Some "UNKNOWN_ERROR")
          (Some (mkErrorDetails None responseTime))
  end.

(** [new Error('API Service not connected')] as [createApiError] sees it. *)
Definition notConnectedError : RaisedError :=
  mkRaisedError (Some "API Service not connected") None None.

(** The arguments the [switch] of [makeRequest] passes to the bridge. *)
Definition bridgeCall (method : Verb) (path : string) (payload options : JsVal)
  : TransportCall :=
  match method with
  | GET => mkCall GET path None options
  | POST => mkCall POST path (Some payload) options
  | PUT => mkCall PUT path (Some payload) options
  | DELETE => mkCall DELETE path None options
  end.

(** [await this.apiService.<verb>(...)]: the call is recorded, the bridge
    answers from the calls it has seen, and the clock moves by the time the
    call took. *)
Definition dispatch (t : Transport) (c : TransportCall) : M Outcome := fun w =>
  let o := t (transportCalls (trace w)) c in
  let ms := match o with Resolved _ ms => ms | Rejected _ ms => ms end in
  (Ok o, advance ms (logEvent (EvTransport c) w)).

(** [this.requestCount++] *)
Definition incrementRequestCount : M unit := fun w =>
  let s := apiServiceWrapper w in
  (Ok tt, setWrapper (mkWrapper (apiService s) (isConnected s) (S (requestCount s))) w).

(** The bridge [makeRequest] goes on to call once [isServiceConnected()]
    has answered true. *)
Definition connectedBridge : M (option Transport) := fun w =>
  let s := apiServiceWrapper w in
  (Ok (if isServiceConnected s then apiService s else None), w).

(** [makeRequest] is private and reached only through [get], [post], [put]
    and [delete], hence over [Verb]; the [default] arm of its [switch] has
    no caller. *)
Definition makeRequest (method : Verb) (path : string) (payload options : JsVal)
  : M ApiResponse :=
  emit (EvWrapper method path) ;;
  do bridge <- connectedBridge ;
  match bridge with
  | None =>
      throw (ThrownApiError
               (createApiError notConnectedError (Some 503)
                  (Some "SERVICE_NOT_CONNECTED") None))
  | Some t =>
      incrementRequestCount ;;
      do startTime <- dateNow ;
      do outcome <- dispatch t (bridgeCall method path payload options) ;
      do endTime <- dateNow ;
      let responseTime := endTime - startTime in
      match outcome with
      | Resolved response _ =>
          do timestamp <- dateNow ;
          ret (mkApiResponse response 200 responseTime timestamp)
      | Rejected e _ =>
          throw (ThrownApiError (handleApiError e responseTime))
      end
  end.

Definition get (path : string) (options : JsVal) : M ApiResponse :=
  makeRequest GET path JUndefined options.

Definition post (path : string) (payload options : JsVal) : M ApiResponse :=
  makeRequest POST path payload options.

Definition put (path : string) (payload options : JsVal) : M ApiResponse :=
  makeRequest PUT path payload options.

Definition delete (path : string) (options : JsVal) : M ApiResponse :=
  makeRequest DELETE path JUndefined options.

(** ** services/demoApiService.ts: [DemoApiService] *)

Definition baseUrl : string := "/api/v1/demo".

(** The request object as handed to the wrapper. *)
Definition itemToJs (d : ItemRequest) : JsVal :=
  JObj ((match name d with Some n => [("name", JStr n)] | None => [] end)
        ++ (match description d with Some s => [("description", JStr s)] | None => [] end)).

Definition okResult {T} (payload : option T) (startTime endTime : Z) : OperationResult T :=
  mkOperationResult true payload None
    (Some (mkTiming startTime endTime (endTime - startTime))).

(** The [catch] clause shared by the six operations, with its fallback text. *)
Definition failResult {T} (fallback : string) (startTime : Z) (t : Thrown)
  : M (OperationResult T) :=
  do endTime <- dateNow ;
  ret (mkOperationResult false None (Some (messageOr t fallback))
         (Some (mkTiming startTime endTime (endTime - startTime)))).

Definition getItems : M (OperationResult JsVal) :=
  do startTime <- dateNow ;
  tryCatch
    (do response <- get (baseUrl ++ "/items") JUndefined ;
     do endTime <- dateNow ;
     do count <- readProp (ar_data response) "count" ;
     do items <- readProp (ar_data response) "data" ;
     ret (okResult (Some items) startTime endTime))
    (failResult "Failed to fetch items" startTime).

(** [!itemData.name?.trim()] *)
Definition nameMissing (d : ItemRequest) : bool :=
  match name d with
  | Some n => isEmptyString (trim n)
  | None => true
  end.

Definition createItem (itemData : ItemRequest) : M (OperationResult JsVal) :=
  do startTime <- dateNow ;
  tryCatch
    (if nameMissing itemData then throw (ThrownError "Error" "Item name is required")
     else
       do response <- post (baseUrl ++ "/items") (itemToJs itemData) JUndefined ;
       do endTime <- dateNow ;
       do item <- readProp (ar_data response) "data" ;
       ret (okResult (Some item) startTime endTime))
    (failResult "Failed to create item" startTime).

Definition updateItem (id : string) (itemData : ItemRequest) : M (OperationResult JsVal) :=
  do startTime <- dateNow ;
  tryCatch
    (if isEmptyString id then throw (ThrownError "Error" "Item ID is required")
     else
       do response <- put (baseUrl ++ "/items/" ++ id) (itemToJs itemData) JUndefined ;
       do endTime <- dateNow ;
       do item <- readProp (ar_data response) "data" ;
       ret (okResult (Some item) startTime endTime))
    (failResult "Failed to update item" startTime).

Definition deleteItem (id : string) : M (OperationResult JsVal) :=
  do startTime <- dateNow ;
  tryCatch
    (if isEmptyString id then throw (ThrownError "Error" "Item ID is required")
     else
       do response <- delete (baseUrl ++ "/items/" ++ id) JUndefined ;
       do endTime <- dateNow ;
       ret (okResult None startTime endTime))
    (failResult "Failed to delete item" startTime).

Definition getStatus : M (OperationResult JsVal) :=
  do startTime <- dateNow ;
  tryCatch
    (do response <- get (baseUrl ++ "/status") JUndefined ;
     do endTime <- dateNow ;
     ret (okResult (Some (ar_data response)) startTime endTime))
    (failResult "Failed to get status" startTime).

Definition healthCheck : M (OperationResult JsVal) :=
  do startTime <- dateNow ;
  tryCatch
    (do response <- get (baseUrl ++ "/health") JUndefined ;
     do endTime <- dateNow ;
     ret (okResult (Some (ar_data response)) startTime endTime))
    (failResult "Health check failed" startTime).

(** The two [if] blocks of [validateItemData], each pushing onto [errors]. *)
Definition nameErrors (d : ItemRequest) : list string :=
  match name d with
  | Some n =>
      if isEmptyString (trim n) then ["Name is required"]
      else if 100 <? strLength n then ["Name must be 100 characters or less"]
      else []
  | None => []
  end.

Definition descriptionErrors (d : ItemRequest) : list string :=
  match description d with
  | Some s =>
      if 500 <? strLength s then ["Description must be 500 characters or less"]
      else []
  | None => []
  end.

Definition validateItemData (d : ItemRequest) : ValidationResult :=
  let errors := (nameErrors d ++ descriptionErrors d)%list in
  mkValidation (Nat.eqb (List.length errors) 0) errors.

Definition getServiceStats (w : World) : nat * bool :=
  getStats (apiServiceWrapper w).

(** ** services/externalApiService.ts: [ExternalApiService] *)

Definition targetUrl : string := "https://community.braindrive.ai/".

(** The deadline of the [AbortController] timer, in milliseconds. *)
Definition abortDeadline : Z := 10000.

(** What [controller.abort()] makes the pending [fetch] reject with: a
    [DOMException], an instance of [Error], named [AbortError]. *)
Definition abortError : Thrown :=
  ThrownError "AbortError" "signal is aborted without reason".

(** How a probe settles under the 10 second timer, and when: a probe the
    network has not settled before the deadline is aborted at the deadline. *)
Definition settle (nb : NetBehaviour) : FetchOutcome * Z :=
  match nb with
  | NetResponds status latency =>
      if latency <? abortDeadline then (FetchResolved status, latency)
      else (FetchRejected abortError, abortDeadline)
  | NetFails t latency =>
      if latency <? abortDeadline then (FetchRejected t, latency)
      else (FetchRejected abortError, abortDeadline)
  | NetHangs => (FetchRejected abortError, abortDeadline)
  end.

(** [await fetch(url, {method: 'HEAD', mode: 'no-cors', cache: 'no-cache',
    signal})] with the [AbortController] timer running. *)
Definition fetchWithSignal (url : string) : M FetchOutcome := fun w =>
  let (outcome, ms) := settle (network w (fetchCount (trace w))) in
  (Ok outcome, advance ms (logEvent (EvFetch url) w)).

(** [this.checkCount++] *)
Definition incrementCheckCount : M unit := fun w =>
  (Ok tt, setExternal (mkExternal (S (checkCount (externalApiService w)))) w).

(** The [status] and [errorMessage] computed by the [catch] clause of
    [checkCommunityStatus]. *)
Definition classifyThrown (t : Thrown) : CheckStatus * string :=
  match t with
  | ThrownError ename emessage =>
      if String.eqb ename "AbortError" then
        (error, "Request timeout after 10 seconds")
      else if (includes emessage "NetworkError" || includes emessage "Failed to fetch")%bool then
        (offline, "Network error - site may be down or unreachable")
      else (offline, emessage)
  | _ => (offline, "Unknown error")
  end.

(** [response.status || null] *)
Definition statusOrNull (status : Z) : option Z :=
  if status =? 0 then None else Some status.

Definition checkCommunityStatus : M (OperationResult ApiCheckResult) :=
  do startTime <- dateNow ;
  incrementCheckCount ;;
  do outcome <- fetchWithSignal targetUrl ;
  do endTime <- dateNow ;
  let responseTime := endTime - startTime in
  do timestamp <- dateNow ;
  match outcome with
  | FetchResolved status =>
      let result :=
        mkApiCheckResult targetUrl online (Some responseTime) timestamp
          (statusOrNull status) None in
      ret (mkOperationResult true (Some result) None
             (Some (mkTiming startTime endTime responseTime)))
  | FetchRejected t =>
      let (status, errorMessage) := classifyThrown t in
      let result :=
        mkApiCheckResult targetUrl status (Some responseTime) timestamp
          None (Some errorMessage) in
      ret (mkOperationResult false (Some result) (Some errorMessage)
             (Some (mkTiming startTime endTime responseTime)))
  end.

(** [await new Promise(resolve => setTimeout(resolve, intervalMs))] on an
    ideal timer. *)
Definition sleep (intervalMs : Z) : M unit := fun w =>
  (Ok tt, advance (Z.max 0 intervalMs) (logEvent (EvSleep intervalMs) w)).

(** [results.filter(r => r.status === 'online').length], the count the
    summary of [performMultipleChecks] reports. *)
Definition onlineCount (results : list ApiCheckResult) : nat :=
  List.length (filter (fun r => CheckStatus_eqb (cr_status r) online) results).

(** The body of [performMultipleChecks].  The single check is a parameter
    of the section: the source calls it through [this]. *)
Section MultipleChecks.

Variable check : M (OperationResult ApiCheckResult).
Variable intervalMs : Z.

(** The [for] loop, [n] iterations from index [i].  [results] is the
    array shared by the [try] block and its [catch] clause, so it is
    handed back whether or not an iteration threw. *)
Fixpoint checkLoop (n i : nat) (results : list ApiCheckResult) (w : World)
  : (list ApiCheckResult * option Thrown) * World :=
  match n with
  | O => ((results, None), w)
  | S n' =>
      let w1 := if Nat.ltb 0 i then snd (sleep intervalMs w) else w in
      match check w1 with
      | (Ok checkResult, w2) =>
          let results' :=
            match data checkResult with
            | Some d => (results ++ [d])%list
            | None => results
            end in
          checkLoop n' (S i) results' w2
      | (Throw t, w2) => ((results, Some t), w2)
      end
  end.

Definition performMultipleChecksWith (count : Z)
  : M (OperationResult (list ApiCheckResult)) :=
  do startTime <- dateNow ;
  fun w =>
    match checkLoop (Z.to_nat count) 0 [] w with
    | ((results, None), w') =>
        let endTime := now w' in
        (Ok (mkOperationResult true (Some results) None
               (Some (mkTiming startTime endTime (endTime - startTime)))), w')
    | ((results, Some t), w') =>
        let endTime := now w' in
        (Ok (mkOperationResult false (Some results)
               (Some (messageOr t "Multiple checks failed"))
               (Some (mkTiming startTime endTime (endTime - startTime)))), w')
    end.

End MultipleChecks.

(** [performMultipleChecks(count = 3, intervalMs = 2000)] for a whole
    number [count]. *)
Definition performMultipleChecks (count intervalMs : Z)
  : M (OperationResult (list ApiCheckResult)) :=
  performMultipleChecksWith checkCommunityStatus intervalMs count.

(** [resetStats()] *)
Definition resetStats (w : World) : World := setExternal (mkExternal 0) w.

(** ** The world at load time *)

Definition initialWorld (net : nat -> NetBehaviour) : World :=
  mkWorld 0 [] newApiServiceWrapper (mkExternal 0) net.

(** ** The status table of the specification

    The fixed status to (code, message) pairs of the seven listed statuses;
    the message texts are the literals of [getErrorMessage]. *)
Definition statusTable : list (Z * (string * string)) :=
  [ (400, ("BAD_REQUEST", "Bad request - please check your input"));
    (401, ("UNAUTHORIZED", "Authentication required - please log in"));
    (403, ("FORBIDDEN", "Access denied - you don't have permission for this action"));
    (404, ("NOT_FOUND", "Resource not found"));
    (422, ("VALIDATION_ERROR", "Validation error - please check your input"));
    (500, ("INTERNAL_SERVER_ERROR", "Server error - please try again later"));
    (503, ("SERVICE_UNAVAILABLE", "Service unavailable - please try again later")) ].

(** The statuses for which [getErrorMessage] lets the server text through. *)
Definition serverOverrides (status : Z) : bool :=
  ((status =? 400) || (status =? 404) || (status =? 422))%bool.

(** Sample inputs used by the closed examples below. *)

Definition error500WithDetail : RaisedError :=
  mkRaisedError (Some "Request failed with status code 500") (Some "ERR_BAD_RESPONSE")
    (Some (mkHttpResponse 500 (JObj [("detail", JStr "database is down")]))).

Definition error404WithDetail : RaisedError :=
  mkRaisedError (Some "Request failed with status code 404") (Some "ERR_BAD_REQUEST")
    (Some (mkHttpResponse 404 (JObj [("detail", JStr "Item not found")]))).

Definition error503Timeout : RaisedError :=
  mkRaisedError (Some "upstream timeout while proxying") None
    (Some (mkHttpResponse 503 JNull)).

Definition bridgeRejecting (e : RaisedError) : Transport :=
  fun _ _ => Rejected e 7.

Definition bridgeResolving (raw : JsVal) : Transport :=
  fun _ _ => Resolved raw 7.

Definition quietNetwork : nat -> NetBehaviour :=
  fun _ => NetResponds 0 40.

Definition world404 : World :=
  setServiceBridge (Some (bridgeRejecting error404WithDetail)) (initialWorld quietNetwork).

Definition sampleItem : ItemRequest := mkItemRequest (Some "ok") (Some "short").

Fixpoint repeatChar (c : ascii) (n : nat) : string :=
  match n with
  | O => EmptyString
  | S n' => String c (repeatChar c n')
  end.

(** What a caller observes of a run: the message of the [ApiError] it
    threw, and the [success] flag and [error] string of the envelope it
    returned. *)
Definition thrownApiMessage {A} (r : Result A * World) : option string :=
  match fst r with
  | Throw (ThrownApiError e) => Some (ae_message e)
  | _ => None
  end.

Definition envelopeOf {T} (r : Result (OperationResult T) * World)
  : option (bool * option string) :=
  match fst r with
  | Ok o => Some (success o, error_text o)
  | Throw _ => None
  end.

(** The events [performMultipleChecks] adds for iterations [i], ...,
    [i + n - 1] of its loop: a wait before every probe but the one of
    iteration 0. *)
Definition probeSchedule (i n : nat) (intervalMs : Z) : list Event :=
  flat_map
    (fun j => ((if Nat.ltb 0 j then [EvSleep intervalMs] else []) ++ [EvFetch targetUrl])%list)
    (seq i n).

(** A message [checkCommunityStatus] takes for a network failure. *)
Definition networkStyle (m : string) : Prop :=
  (exists a b, m = (a ++ "NetworkError" ++ b)%string) \/
  (exists a b, m = (a ++ "Failed to fetch" ++ b)%string).

Definition failingNetwork : nat -> NetBehaviour :=
  fun _ => NetFails (ThrownError "TypeError" "Failed to fetch") 5.

Definition hangingNetwork : nat -> NetBehaviour := fun _ => NetHangs.

(** A probe rejected with a plain object that carries a [message]. *)
Definition objectRejectingNetwork : nat -> NetBehaviour :=
  fun _ => NetFails (ThrownOther (JObj [("message", JStr "boom")])) 5.

(** A probe rejected with [new Error()], whose message is empty. *)
Definition emptyMessageNetwork : nat -> NetBehaviour :=
  fun _ => NetFails (ThrownError "Error" "") 5.

(** A probe rejected with an [Error] that is neither an abort nor
    network-style. *)
Definition loadFailedNetwork : nat -> NetBehaviour :=
  fun _ => NetFails (ThrownError "TypeError" "Load failed") 5.

Definition errorNetworkCode : RaisedError :=
  mkRaisedError (Some "Network Error") (Some "ERR_NETWORK") None.

Definition errorTimeoutExceeded : RaisedError :=
  mkRaisedError (Some "timeout of 5000ms exceeded") (Some "ECONNABORTED") None.

Definition errorPlain : RaisedError :=
  mkRaisedError (Some "Request failed") None None.

(** A check that completes once and throws from then on. *)
Definition flakyCheck : M (OperationResult ApiCheckResult) := fun w =>
  if Nat.ltb (checkCount (externalApiService w)) 1 then checkCommunityStatus w
  else (Throw (ThrownError "Error" "boom"), w).

(** The bridge of the documented component test: [get] rejects with
    [new Error('Network error')]. *)
Definition worldNetworkError : World :=
  setServiceBridge
    (Some (bridgeRejecting (mkRaisedError (Some "Network error") None None)))
    (initialWorld quietNetwork).

(** Closes a goal whose hypotheses about the validation rules clash. *)
#[local] Ltac contradict_rules :=
  repeat match goal with
    | H : exists _, _ |- _ => destruct H
    | H : _ /\ _ |- _ => destruct H
    | H : In _ _ |- _ => simpl in H
    | H : _ \/ _ |- _ => destruct H
    | H : False |- _ => contradiction
    | H : _ = _ :> string |- _ => discriminate H
    | H : _ = _ :> list _ |- _ => discriminate H
    | H : forall n, ?f = Some n -> _, E : ?f = Some _ |- _ => specialize (H _ E)
    end;
  try congruence; try lia.

(** ** Further code of the services and their clients *)

(** [ExternalApiService.getStats()] *)
Definition getCheckerStats (s : ExternalApiService) : nat * string :=
  (checkCount s, targetUrl).

(** [ExternalApiService.getStatusDescription(status)] *)
Definition getStatusDescription (status : string) : string :=
  if String.eqb status "online" then "Site is accessible and responding"
  else if String.eqb status "offline" then "Site is not accessible or not responding"
  else if String.eqb status "error" then "Error occurred during connectivity test"
  else if String.eqb status "checking" then "Connectivity check in progress"
  else "Unknown connectivity status".

(** The string a [CheckStatus] is in the source. *)
Definition statusName (s : CheckStatus) : string :=
  match s with
  | online => "online"
  | offline => "offline"
  | error => "error"
  | checking => "checking"
  end.

(** The six operations of [DemoApiService] as one family. *)
Inductive DomainOp : Type :=
| OpGetItems
| OpCreateItem (itemData : ItemRequest)
| OpUpdateItem (id : string) (itemData : ItemRequest)
| OpDeleteItem (id : string)
| OpGetStatus
| OpHealthCheck.

Definition runDomainOp (op : DomainOp) : M (OperationResult JsVal) :=
  match op with
  | OpGetItems => getItems
  | OpCreateItem d => createItem d
  | OpUpdateItem id d => updateItem id d
  | OpDeleteItem id => deleteItem id
  | OpGetStatus => getStatus
  | OpHealthCheck => healthCheck
  end.

(** What the source shows of each operation, stated apart from the code
    above and compared with it below: the request it hands to the wrapper
    unless its local check refuses, the text of that local refusal, the
    fallback text of its [catch] clause, and what it makes of the body the
    bridge resolved with. *)
Definition domainRequest (op : DomainOp) : option (Verb * string * JsVal) :=
  match op with
  | OpGetItems => Some (GET, "/api/v1/demo/items", JUndefined)
  | OpCreateItem d =>
      if nameMissing d then None else Some (POST, "/api/v1/demo/items", itemToJs d)
  | OpUpdateItem id d =>
      if isEmptyString id then None
      else Some (PUT, ("/api/v1/demo/items/" ++ id)%string, itemToJs d)
  | OpDeleteItem id =>
      if isEmptyString id then None
      else Some (DELETE, ("/api/v1/demo/items/" ++ id)%string, JUndefined)
  | OpGetStatus => Some (GET, "/api/v1/demo/status", JUndefined)
  | OpHealthCheck => Some (GET, "/api/v1/demo/health", JUndefined)
  end.

Definition localRefusal (op : DomainOp) : string :=
  match op with
  | OpCreateItem _ => "Item name is required"
  | _ => "Item ID is required"
  end.

Definition domainFallback (op : DomainOp) : string :=
  match op with
  | OpGetItems => "Failed to fetch items"
  | OpCreateItem _ => "Failed to create item"
  | OpUpdateItem _ _ => "Failed to update item"
  | OpDeleteItem _ => "Failed to delete item"
  | OpGetStatus => "Failed to get status"
  | OpHealthCheck => "Health check failed"
  end.

Definition isNullish (v : JsVal) : bool :=
  match v with
  | JUndefined | JNull => true
  | _ => false
  end.

(** The payload of the envelope for a resolved body; [None] when reading
    the body throws. *)
Definition unwrapBody (op : DomainOp) (raw : JsVal) : option (option JsVal) :=
  match op with
  | OpGetItems | OpCreateItem _ | OpUpdateItem _ _ =>
      if isNullish raw then None else Some (Some (getProp raw "data"))
  | OpDeleteItem _ => Some None
  | OpGetStatus | OpHealthCheck => Some (Some raw)
  end.

(** The property whose reading throws on a nullish body, and the message
    of that [TypeError]. *)
Definition bodyKey (op : DomainOp) : string :=
  match op with
  | OpGetItems => "count"
  | _ => "data"
  end.

Definition bodyError (op : DomainOp) (raw : JsVal) : string :=
  match raw with
  | JNull => "Cannot read properties of null (reading '" ++ bodyKey op ++ "')"
  | _ => "Cannot read properties of undefined (reading '" ++ bodyKey op ++ "')"
  end.

(** The envelope an operation returns for a resolved body. *)
Definition bodyEnvelope (op : DomainOp) (raw : JsVal) (startTime endTime : Z)
  : OperationResult JsVal :=
  match unwrapBody op raw with
  | Some payload => okResult payload startTime endTime
  | None =>
      mkOperationResult false None (Some (bodyError op raw))
        (Some (mkTiming startTime endTime (endTime - startTime)))
  end.

(** What a caller can tell two envelopes apart by, timing aside. *)
Definition envelopeView {T} (r : Result (OperationResult T) * World)
  : option (bool * option T * option string) :=
  match fst r with
  | Ok o => Some (success o, data o, error_text o)
  | Throw _ => None
  end.

(** [ApiExample.extractErrorMessage(error)], on the shape it inspects:
    [error?.message], [error?.response?.data], [error?.code], and [text],
    the string [error?.toString()] gives (empty when there is none). *)
Definition extractErrorMessage (e : RaisedError) (text : string) : JsVal :=
  let body := match re_response e with
              | Some r => resp_data r
              | None => JUndefined
              end in
  if match re_message e with
     | Some m => negb (String.eqb m "")
     | None => false
     end
  then match re_message e with
       | Some m => JStr m
       | None => JUndefined
       end
  else if truthy (getProp body "detail") then getProp body "detail"
  else if truthy (getProp body "message") then getProp body "message"
  else if isNetworkCode e then
    JStr "Network connection failed. Please check your internet connection."
  else if mentionsTimeout e then
    JStr "Request timed out. The server is taking too long to respond."
  else if negb (String.eqb text "") then JStr text
  else JStr "An unexpected error occurred".

(** An [ApiError] object as [extractErrorMessage] reads it: it has a
    [message] and a [code] and no [response]. *)
Definition apiErrorShape (a : ApiError) : RaisedError :=
  mkRaisedError (Some (ae_message a)) (ae_code a) None.

(** A client of the singletons: one call after another. *)
Inductive Action : Type :=
| ActConnect (service : option Transport)
| ActRequest (method : Verb) (path : string) (payload options : JsVal)
| ActDomain (op : DomainOp)
| ActCheck
| ActMultipleChecks (count intervalMs : Z)
| ActResetStats.

Definition runAction (a : Action) (w : World) : World :=
  match a with
  | ActConnect service => setServiceBridge service w
  | ActRequest method path payload options =>
      snd (makeRequest method path payload options w)
  | ActDomain op => snd (runDomainOp op w)
  | ActCheck => snd (checkCommunityStatus w)
  | ActMultipleChecks count intervalMs => snd (performMultipleChecks count intervalMs w)
  | ActResetStats => resetStats w
  end.

Definition runActions (actions : list Action) (w : World) : World :=
  fold_left (fun w a => runAction a w) actions w.

(** The status and error text [checkCommunityStatus] reports for what the
    network does with a probe, and the time the probe takes. *)
Definition probeVerdict (nb : NetBehaviour) : CheckStatus * option string :=
  match fst (settle nb) with
  | FetchResolved _ => (online, None)
  | FetchRejected t => (fst (classifyThrown t), Some (snd (classifyThrown t)))
  end.

Definition probeTime (nb : NetBehaviour) : Z := snd (settle nb).

Definition sumZ (l : list Z) : Z := fold_right Z.add 0 l.

(** A probe the network answers before the deadline. *)
Definition respondsInTime (nb : NetBehaviour) : bool :=
  match nb with
  | NetResponds _ latency => latency <? abortDeadline
  | _ => false
  end.

(** A network whose latencies are not negative. *)
Definition wellTimed (nb : NetBehaviour) : Prop :=
  match nb with
  | NetResponds _ latency => 0 <= latency
  | NetFails _ latency => 0 <= latency
  | NetHangs => True
  end.

(** * Properties *)

(** ** Strings *)

Lemma prefix_append (p s : string) :
  String.prefix p s = true <-> exists b, s = (p ++ b)%string.
Proof.
  revert s; induction p as [|c p IH]; intros s.
  - split; [intros _; exists s; reflexivity | intros _; destruct s; reflexivity].
  - destruct s as [|c' s]; simpl.
    + split; [discriminate | intros [b Hb]; discriminate].
    + destruct (ascii_dec c c') as [E|Hne].
      * subst c'. split.
        -- intros H. apply IH in H as [b Hb]. exists b. now rewrite Hb.
        -- intros [b Hb]. apply IH. exists b. now inversion Hb.
      * split; [discriminate | intros [b Hb]; inversion Hb; congruence].
Qed.

Lemma includes_unfold (s sub : string) :
  includes s sub =
  if String.prefix sub s then true
  else match s with
       | EmptyString => false
       | String _ s' => includes s' sub
       end.
Proof. destruct s; reflexivity. Qed.

(** [includes] is the substring test. *)
Lemma includes_spec (s sub : string) :
  includes s sub = true <-> exists a b, s = (a ++ sub ++ b)%string.
Proof.
  split.
  - induction s as [|c s IH]; rewrite includes_unfold;
      destruct (String.prefix sub _) eqn:Hp.
    + intros _. apply prefix_append in Hp as [b Hb]. now exists EmptyString, b.
    + discriminate.
    + intros _. apply prefix_append in Hp as [b Hb]. now exists EmptyString, b.
    + intros H. destruct (IH H) as (a & b & ->). now exists (String c a), b.
  - intros (a & b & ->). induction a as [|c a IH]; rewrite includes_unfold.
    + replace (String.prefix sub (EmptyString ++ sub ++ b)) with true; [reflexivity|].
      symmetry. apply prefix_append. now exists b.
    + destruct (String.prefix sub _); [reflexivity | exact IH].
Qed.

Lemma trimStart_empty (s : string) :
  trimStart s = EmptyString <->
  forall c, In c (list_ascii_of_string s) -> isWhiteSpace c = true.
Proof.
  induction s as [|c s IH]; simpl.
  - split; [intros _ c [] | reflexivity].
  - destruct (isWhiteSpace c) eqn:Hc.
    + rewrite IH. split.
      * intros H c' [<-|Hin]; auto.
      * intros H c' Hin. apply H. now right.
    + split; [discriminate|]. intros H.
      specialize (H c (or_introl eq_refl)). congruence.
Qed.

Lemma trimStart_head (s : string) (c : ascii) (r : string) :
  trimStart s = String c r -> isWhiteSpace c = false.
Proof.
  induction s as [|c' s IH]; simpl; [discriminate|].
  destruct (isWhiteSpace c') eqn:Hc; [exact IH|].
  intros [= <- _]. exact Hc.
Qed.

(** A string trims to the empty string exactly when it is all white space. *)
Lemma trim_empty (s : string) :
  trim s = EmptyString <->
  forall c, In c (list_ascii_of_string s) -> isWhiteSpace c = true.
Proof.
  rewrite <- trimStart_empty. unfold trim.
  destruct (trimStart s) as [|c r] eqn:Hs.
  - split; reflexivity.
  - apply trimStart_head in Hs. simpl. rewrite Hs.
    destruct (trimEnd r); split; discriminate.
Qed.

Lemma isEmptyString_true (s : string) : isEmptyString s = true <-> s = EmptyString.
Proof. unfold isEmptyString. apply String.eqb_eq. Qed.

Lemma isEmptyString_false (s : string) : isEmptyString s = false <-> s <> EmptyString.
Proof. unfold isEmptyString. apply String.eqb_neq. Qed.

(** ** The ghost trace *)

Lemma transportCalls_app (a b : list Event) :
  transportCalls (a ++ b) = (transportCalls a ++ transportCalls b)%list.
Proof.
  induction a as [|[] a IH]; simpl; rewrite ?IH; reflexivity.
Qed.

Lemma wrapperCalls_app (a b : list Event) :
  wrapperCalls (a ++ b) = (wrapperCalls a ++ wrapperCalls b)%list.
Proof.
  induction a as [|[] a IH]; simpl; rewrite ?IH; reflexivity.
Qed.

Lemma fetchCount_app (a b : list Event) :
  fetchCount (a ++ b) = (fetchCount a + fetchCount b)%nat.
Proof.
  induction a as [|[] a IH]; simpl; rewrite ?IH; reflexivity.
Qed.

Create Rewrite HintDb trace.
#[local] Hint Rewrite transportCalls_app wrapperCalls_app fetchCount_app
  app_nil_r : trace.

(** ** The request wrapper *)

Lemma getErrorCode_cases (status : Z) :
  In (getErrorCode status)
     ["BAD_REQUEST"; "UNAUTHORIZED"; "FORBIDDEN"; "NOT_FOUND"; "VALIDATION_ERROR";
      "INTERNAL_SERVER_ERROR"; "SERVICE_UNAVAILABLE"; "HTTP_ERROR"].
Proof.
  unfold getErrorCode.
  repeat match goal with |- context [?a =? ?b] => destruct (a =? b) end;
    simpl; tauto.
Qed.

Lemma isNetworkCode_true (e : RaisedError) :
  isNetworkCode e = true <-> re_code e = Some "ERR_NETWORK".
Proof.
  unfold isNetworkCode. destruct (re_code e) as [c|].
  - rewrite String.eqb_eq. split; [now intros -> | now intros [= ->]].
  - split; discriminate.
Qed.

Lemma mentionsTimeout_true (e : RaisedError) :
  mentionsTimeout e = true <->
  exists m a b, re_message e = Some m /\ m = (a ++ "timeout" ++ b)%string.
Proof.
  unfold mentionsTimeout. destruct (re_message e) as [m|].
  - rewrite includes_spec. split.
    + intros (a & b & H). now exists m, a, b.
    + intros (m' & a & b & [= <-] & H). now exists a, b.
  - split; [discriminate | intros (m & a & b & H & _); discriminate].
Qed.

(** Running [makeRequest] on a wrapper that is not connected. *)
Lemma makeRequest_not_connected (method : Verb) (path : string) (payload options : JsVal)
    (w : World) :
  isServiceConnected (apiServiceWrapper w) = false ->
  makeRequest method path payload options w =
  (Throw (ThrownApiError
            (mkApiError "API Service not connected" (Some 503)
               (Some "SERVICE_NOT_CONNECTED") None)),
   logEvent (EvWrapper method path) w).
Proof.
  intros H. unfold makeRequest, bind, emit, connectedBridge. simpl.
  rewrite H. reflexivity.
Qed.

(** Running [makeRequest] on a connected wrapper: one call of the bridge,
    whose outcome decides between the response and the classified error. *)
Lemma makeRequest_connected (method : Verb) (path : string) (payload options : JsVal)
    (w : World) (t : Transport) :
  isConnected (apiServiceWrapper w) = true ->
  apiService (apiServiceWrapper w) = Some t ->
  let c := bridgeCall method path payload options in
  let s := apiServiceWrapper w in
  let w' ms :=
    mkWorld (now w + ms)
      (trace w ++ [EvWrapper method path; EvTransport c])
      (mkWrapper (Some t) true (S (requestCount s)))
      (externalApiService w) (network w) in
  makeRequest method path payload options w =
  match t (transportCalls (trace w)) c with
  | Resolved raw ms => (Ok (mkApiResponse raw 200 ms (now w + ms)), w' ms)
  | Rejected e ms => (Throw (ThrownApiError (handleApiError e ms)), w' ms)
  end.
Proof.
  intros Hc Hs c s w'.
  unfold makeRequest, bind, emit, connectedBridge, isServiceConnected. simpl.
  rewrite Hc, Hs. simpl.
  unfold dispatch. simpl.
  rewrite transportCalls_app, app_nil_r. fold c.
  subst w'. destruct (t (transportCalls (trace w)) c) as [raw ms|e ms];
    unfold advance, logEvent, ret, throw; simpl; rewrite <- app_assoc; simpl;
    rewrite Hc, Hs; replace (now w + ms - now w) with ms by lia; reflexivity.
Qed.

Lemma makeRequest_keeps_bridge (method : Verb) (path : string) (payload options : JsVal)
    (w : World) :
  let s' := apiServiceWrapper (snd (makeRequest method path payload options w)) in
  apiService s' = apiService (apiServiceWrapper w) /\
  isConnected s' = isConnected (apiServiceWrapper w).
Proof.
  destruct (isServiceConnected (apiServiceWrapper w)) eqn:Hc.
  - unfold isServiceConnected in Hc. apply andb_true_iff in Hc as [Hi Hs].
    destruct (apiService (apiServiceWrapper w)) as [t|] eqn:Ht; [|discriminate].
    rewrite (makeRequest_connected method path payload options w t Hi Ht).
    destruct (t _ _); simpl; auto.
  - rewrite makeRequest_not_connected by assumption. simpl. auto.
Qed.

(** C1, as amended.  For an error carrying a response whose status is one
    of 400, 401, 403, 404, 422, 500, 503, the classified error has the code
    of the table and that status, and the message [getErrorMessage] computes
    is the table's message, except that a truthy server-supplied [detail] or
    [message] is that message verbatim when the status is 400, 404 or 422;
    for 401, 403, 500 and 503 the fixed message always stands. *)
Theorem classifier_status_table (e : RaisedError) (r : HttpResponse) (responseTime : Z)
    (status : Z) (code msg : string) :
  re_response e = Some r ->
  resp_status r = status ->
  In (status, (code, msg)) statusTable ->
  ae_code (handleApiError e responseTime) = Some code /\
  ae_status (handleApiError e responseTime) = Some status /\
  getErrorMessage status (resp_data r) =
    if (truthy (serverMessage (resp_data r)) && serverOverrides status)%bool
    then serverMessage (resp_data r)
    else JStr msg.
Proof.
  intros Hr Hs Hin. unfold handleApiError. rewrite Hr. simpl. rewrite Hs.
  unfold statusTable in Hin. simpl in Hin.
  repeat destruct Hin as [Hin|Hin]; try contradiction;
    injection Hin as <- <- <-; (split; [reflexivity|split; [reflexivity|]]);
    unfold getErrorMessage, serverOverrides, jsOr; simpl;
    destruct (truthy (serverMessage (resp_data r))); reflexivity.
Qed.

Lemma classifier_status_table_witness :
  (ae_code (handleApiError error404WithDetail 12) = Some "NOT_FOUND" /\
   ae_status (handleApiError error404WithDetail 12) = Some 404 /\
   getErrorMessage 404 (JObj [("detail", JStr "Item not found")])
     = JStr "Item not found") /\
  (ae_code (handleApiError error500WithDetail 12) = Some "INTERNAL_SERVER_ERROR" /\
   ae_status (handleApiError error500WithDetail 12) = Some 500 /\
   getErrorMessage 500 (JObj [("detail", JStr "database is down")])
     = JStr "Server error - please try again later").
Proof.
  split.
  - apply (classifier_status_table error404WithDetail
             (mkHttpResponse 404 (JObj [("detail", JStr "Item not found")])) 12
             404 "NOT_FOUND" "Resource not found").
    + reflexivity.
    + reflexivity.
    + simpl. tauto.
  - apply (classifier_status_table error500WithDetail
             (mkHttpResponse 500 (JObj [("detail", JStr "database is down")])) 12
             500 "INTERNAL_SERVER_ERROR" "Server error - please try again later").
    + reflexivity.
    + reflexivity.
    + simpl. tauto.
Defined.

(** C1 as stated fails: a 500 response whose body carries a [detail] is
    classified with the code of the table, yet neither the message of the
    classified error nor the one [getErrorMessage] computes is that server
    text. *)
Lemma classifier_message_counterexample :
  re_response error500WithDetail
    = Some (mkHttpResponse 500 (JObj [("detail", JStr "database is down")])) /\
  serverMessage (JObj [("detail", JStr "database is down")]) = JStr "database is down" /\
  ae_code (handleApiError error500WithDetail 12) = Some "INTERNAL_SERVER_ERROR" /\
  ae_message (handleApiError error500WithDetail 12) <> "database is down" /\
  getErrorMessage 500 (JObj [("detail", JStr "database is down")])
    <> JStr "database is down".
Proof.
  repeat split; try reflexivity; vm_compute; discriminate.
Qed.

(** C3.  While no bridge is installed, [isServiceConnected] answers false
    and every request is refused with [SERVICE_NOT_CONNECTED] without a call
    of the bridge and without a change of the request counter; installing a
    bridge makes [isServiceConnected] answer true. *)
Theorem not_connected_requests_refused (w : World) :
  apiService (apiServiceWrapper w) = None ->
  isServiceConnected (apiServiceWrapper w) = false /\
  (forall method path payload options,
      exists e w',
        makeRequest method path payload options w = (Throw (ThrownApiError e), w') /\
        ae_code e = Some "SERVICE_NOT_CONNECTED" /\
        transportCalls (trace w') = transportCalls (trace w) /\
        requestCount (apiServiceWrapper w') = requestCount (apiServiceWrapper w) /\
        apiService (apiServiceWrapper w') = None) /\
  (forall t, isServiceConnected (apiServiceWrapper (setServiceBridge (Some t) w)) = true).
Proof.
  intros Hnone.
  assert (Hc : isServiceConnected (apiServiceWrapper w) = false).
  { unfold isServiceConnected. rewrite Hnone. apply andb_false_r. }
  split; [exact Hc|]. split.
  - intros method path payload options.
    rewrite makeRequest_not_connected by exact Hc.
    eexists; eexists. split; [reflexivity|]. simpl.
    autorewrite with trace. auto.
  - intros t. reflexivity.
Qed.

Lemma not_connected_requests_refused_witness :
  isServiceConnected (apiServiceWrapper (initialWorld quietNetwork)) = false /\
  (forall method path payload options,
      exists e w',
        makeRequest method path payload options (initialWorld quietNetwork)
          = (Throw (ThrownApiError e), w') /\
        ae_code e = Some "SERVICE_NOT_CONNECTED" /\
        transportCalls (trace w') = transportCalls (trace (initialWorld quietNetwork)) /\
        requestCount (apiServiceWrapper w')
          = requestCount (apiServiceWrapper (initialWorld quietNetwork)) /\
        apiService (apiServiceWrapper w') = None) /\
  (forall t, isServiceConnected
               (apiServiceWrapper (setServiceBridge (Some t) (initialWorld quietNetwork)))
             = true).
Proof.
  apply (not_connected_requests_refused (initialWorld quietNetwork)).
  reflexivity.
Defined.

(** C6.  The classifier is a function of the error alone and tries its
    predicates in order: a response decides by its status; failing that the
    code [ERR_NETWORK] gives [NETWORK_ERROR] with status 0; failing that a
    message containing [timeout] gives [TIMEOUT] with status 408; anything
    else is [UNKNOWN_ERROR] with status 500.  An error with both a response
    and a message containing [timeout] is classified by its status. *)
Theorem classifier_first_match (e : RaisedError) (responseTime : Z) :
  let classified := handleApiError e responseTime in
  let timeoutInMessage :=
    exists m a b, re_message e = Some m /\ m = (a ++ "timeout" ++ b)%string in
  (forall responseTime',
      ae_code (handleApiError e responseTime') = ae_code classified /\
      ae_status (handleApiError e responseTime') = ae_status classified /\
      ae_message (handleApiError e responseTime') = ae_message classified) /\
  (forall r, re_response e = Some r ->
      ae_code classified = Some (getErrorCode (resp_status r)) /\
      ae_status classified = Some (resp_status r)) /\
  (re_response e = None -> re_code e = Some "ERR_NETWORK" ->
      ae_code classified = Some "NETWORK_ERROR" /\ ae_status classified = Some 0) /\
  (re_response e = None -> re_code e <> Some "ERR_NETWORK" -> timeoutInMessage ->
      ae_code classified = Some "TIMEOUT" /\ ae_status classified = Some 408) /\
  (re_response e = None -> re_code e <> Some "ERR_NETWORK" -> ~ timeoutInMessage ->
      ae_code classified = Some "UNKNOWN_ERROR" /\ ae_status classified = Some 500) /\
  (forall r, re_response e = Some r -> timeoutInMessage ->
      ae_code classified = Some (getErrorCode (resp_status r)) /\
      ae_code classified <> Some "TIMEOUT" /\
      ae_status classified = Some (resp_status r)).
Proof.
  intros classified timeoutInMessage. subst classified.
  assert (Hnet : forall b, isNetworkCode e = b ->
                           if b then re_code e = Some "ERR_NETWORK"
                           else re_code e <> Some "ERR_NETWORK").
  { intros [|] Hb; [now apply isNetworkCode_true|].
    intros H. apply isNetworkCode_true in H. congruence. }
  assert (Htime : forall b, mentionsTimeout e = b ->
                            if b then timeoutInMessage else ~ timeoutInMessage).
  { intros [|] Hb; [now apply mentionsTimeout_true|].
    intros H. apply mentionsTimeout_true in H. congruence. }
  unfold handleApiError.
  destruct (re_response e) as [r|].
  - split; [intros; simpl; auto|].
    split; [intros r' [= <-]; simpl; auto|].
    split; [discriminate|]. split; [discriminate|]. split; [discriminate|].
    intros r' [= <-] _. simpl. split; [reflexivity|]. split; [|reflexivity].
    intros [= H]. pose proof (getErrorCode_cases (resp_status r)) as Hc.
    rewrite H in Hc. simpl in Hc.
    repeat destruct Hc as [Hc|Hc]; try discriminate; contradiction.
  - specialize (Hnet _ eq_refl). specialize (Htime _ eq_refl).
    split; [intros; destruct (isNetworkCode e), (mentionsTimeout e); simpl; auto|].
    split; [discriminate|].
    destruct (isNetworkCode e); [|destruct (mentionsTimeout e)]; simpl;
      (split; [intros; try contradiction; try congruence; auto|]);
      (split; [intros; try contradiction; try congruence; auto|]);
      (split; [intros; try contradiction; try congruence; auto|]);
      discriminate.
Qed.

Lemma classifier_first_match_witness :
  (ae_code (handleApiError error503Timeout 12) = Some "SERVICE_UNAVAILABLE" /\
   ae_code (handleApiError error503Timeout 12) <> Some "TIMEOUT" /\
   ae_status (handleApiError error503Timeout 12) = Some 503) /\
  (ae_code (handleApiError errorNetworkCode 12) = Some "NETWORK_ERROR" /\
   ae_status (handleApiError errorNetworkCode 12) = Some 0) /\
  (ae_code (handleApiError errorTimeoutExceeded 12) = Some "TIMEOUT" /\
   ae_status (handleApiError errorTimeoutExceeded 12) = Some 408) /\
  (ae_code (handleApiError errorPlain 12) = Some "UNKNOWN_ERROR" /\
   ae_status (handleApiError errorPlain 12) = Some 500).
Proof.
  split; [|split; [|split]].
  - pose proof (classifier_first_match error503Timeout 12) as H. simpl in H.
    destruct H as (_ & _ & _ & _ & _ & H).
    apply (H (mkHttpResponse 503 JNull)).
    + reflexivity.
    + exists "upstream timeout while proxying", "upstream ", " while proxying".
      split; reflexivity.
  - pose proof (classifier_first_match errorNetworkCode 12) as H. simpl in H.
    destruct H as (_ & _ & H & _).
    apply H; reflexivity.
  - pose proof (classifier_first_match errorTimeoutExceeded 12) as H. simpl in H.
    destruct H as (_ & _ & _ & H & _).
    apply H.
    + reflexivity.
    + discriminate.
    + exists "timeout of 5000ms exceeded", "", " of 5000ms exceeded".
      split; reflexivity.
  - pose proof (classifier_first_match errorPlain 12) as H. simpl in H.
    destruct H as (_ & _ & _ & _ & H & _).
    apply H.
    + reflexivity.
    + discriminate.
    + intros (m & a & b & [= <-] & Hm).
      assert (Hi : includes "Request failed" "timeout" = true)
        by (apply includes_spec; now exists a, b).
      vm_compute in Hi. discriminate Hi.
Defined.

(** C10.  A request whose bridge call resolves returns a response whose
    [status] is 200 and whose [data] is what the bridge resolved with; no
    returned response has any other status. *)
Theorem success_status_is_200 (method : Verb) (path : string) (payload options : JsVal)
    (w : World) :
  (forall response w',
      makeRequest method path payload options w = (Ok response, w') ->
      ar_status response = 200) /\
  (forall t raw ms,
      isConnected (apiServiceWrapper w) = true ->
      apiService (apiServiceWrapper w) = Some t ->
      t (transportCalls (trace w)) (bridgeCall method path payload options)
        = Resolved raw ms ->
      exists response w',
        makeRequest method path payload options w = (Ok response, w') /\
        ar_status response = 200 /\ ar_data response = raw).
Proof.
  split.
  - intros response w' H.
    destruct (isServiceConnected (apiServiceWrapper w)) eqn:Hc.
    + unfold isServiceConnected in Hc. apply andb_true_iff in Hc as [Hi Hs].
      destruct (apiService (apiServiceWrapper w)) as [t|] eqn:Ht; [|discriminate].
      rewrite (makeRequest_connected method path payload options w t Hi Ht) in H.
      destruct (t _ _); [|discriminate].
      injection H as <- _. reflexivity.
    + rewrite makeRequest_not_connected in H by assumption. discriminate.
  - intros t raw ms Hi Ht Hres.
    rewrite (makeRequest_connected method path payload options w t Hi Ht), Hres.
    eexists; eexists. split; [reflexivity|]. split; reflexivity.
Qed.

Lemma success_status_is_200_witness :
  exists response w',
    makeRequest GET "/api/v1/demo/status" JUndefined JUndefined
      (setServiceBridge (Some (bridgeResolving (JObj [("status", JNum 404)])))
         (initialWorld quietNetwork))
      = (Ok response, w') /\
    ar_status response = 200 /\
    ar_data response = JObj [("status", JNum 404)].
Proof.
  apply (proj2 (success_status_is_200 GET "/api/v1/demo/status" JUndefined JUndefined
                  (setServiceBridge
                     (Some (bridgeResolving (JObj [("status", JNum 404)])))
                     (initialWorld quietNetwork)))
           (bridgeResolving (JObj [("status", JNum 404)]))
           (JObj [("status", JNum 404)]) 7);
    reflexivity.
Defined.

(** ** The demo operations *)

(** What one request leaves behind: one entry in the wrapper's log, and,
    when connected, one call of the bridge and one more on the counter. *)
Lemma makeRequest_effects (method : Verb) (path : string) (payload options : JsVal)
    (w : World) :
  let w' := snd (makeRequest method path payload options w) in
  wrapperCalls (trace w') = (wrapperCalls (trace w) ++ [(method, path)])%list /\
  (isServiceConnected (apiServiceWrapper w) = true ->
   transportCalls (trace w')
     = (transportCalls (trace w) ++ [bridgeCall method path payload options])%list /\
   requestCount (apiServiceWrapper w') = S (requestCount (apiServiceWrapper w))) /\
  (isServiceConnected (apiServiceWrapper w) = false ->
   transportCalls (trace w') = transportCalls (trace w) /\
   requestCount (apiServiceWrapper w') = requestCount (apiServiceWrapper w)).
Proof.
  destruct (isServiceConnected (apiServiceWrapper w)) eqn:Hc.
  - unfold isServiceConnected in Hc. apply andb_true_iff in Hc as [Hi Hs].
    destruct (apiService (apiServiceWrapper w)) as [t|] eqn:Ht; [|discriminate].
    rewrite (makeRequest_connected method path payload options w t Hi Ht).
    destruct (t _ _); simpl; autorewrite with trace; simpl;
      (split; [reflexivity|split; [auto|discriminate]]).
  - rewrite makeRequest_not_connected by assumption. simpl.
    autorewrite with trace. simpl.
    split; [reflexivity|split; [discriminate|auto]].
Qed.

(** The [catch] clause of the operations on the wrapper's [ApiError]: the
    object is not an instance of [Error], so the fallback text is used. *)
Lemma failResult_api_error {T} (fallback : string) (start : Z) (e : ApiError) (w : World) :
  @failResult T fallback start (ThrownApiError e) w =
  (Ok (mkOperationResult false None (Some fallback)
         (Some (mkTiming start (now w) (now w - start)))), w).
Proof. reflexivity. Qed.

Lemma getItems_on_api_error (w w' : World) (e : ApiError) :
  get (baseUrl ++ "/items") JUndefined w = (Throw (ThrownApiError e), w') ->
  envelopeOf (getItems w) = Some (false, Some "Failed to fetch items").
Proof.
  intros H. unfold envelopeOf, getItems, bind, tryCatch, dateNow. cbv beta iota.
  rewrite H. reflexivity.
Qed.

(** C2, evaluated where it fails.  The bridge rejects with a 404; each
    wrapper request throws a classified error whose message is the
    rejection's, and each of the six operations returns a failure envelope
    whose error string is its own fallback text instead of that message.
    The same happens when the bridge rejects with [Error('Network error')]
    and when the wrapper is not connected. *)
Theorem domain_envelope_drops_classified_message :
  thrownApiMessage (get (baseUrl ++ "/items") JUndefined world404)
    = Some "Request failed with status code 404" /\
  envelopeOf (getItems world404) = Some (false, Some "Failed to fetch items") /\
  envelopeOf (createItem sampleItem world404) = Some (false, Some "Failed to create item") /\
  envelopeOf (updateItem "42" sampleItem world404)
    = Some (false, Some "Failed to update item") /\
  envelopeOf (deleteItem "42" world404) = Some (false, Some "Failed to delete item") /\
  envelopeOf (getStatus world404) = Some (false, Some "Failed to get status") /\
  envelopeOf (healthCheck world404) = Some (false, Some "Health check failed") /\
  thrownApiMessage (get (baseUrl ++ "/items") JUndefined worldNetworkError)
    = Some "Network error" /\
  envelopeOf (getItems worldNetworkError) = Some (false, Some "Failed to fetch items") /\
  thrownApiMessage (get (baseUrl ++ "/items") JUndefined (initialWorld quietNetwork))
    = Some "API Service not connected" /\
  envelopeOf (getItems (initialWorld quietNetwork))
    = Some (false, Some "Failed to fetch items").
Proof.
  repeat split; vm_compute; reflexivity.
Qed.

Lemma nameMissing_true (d : ItemRequest) :
  nameMissing d = true <-> forall n, name d = Some n -> trim n = EmptyString.
Proof.
  unfold nameMissing. destruct (name d) as [n|].
  - rewrite isEmptyString_true. split; [now intros H n' [= <-] | auto].
  - split; [discriminate | reflexivity].
Qed.

(** [createItem] never throws, and past the validation it does nothing to
    the world but what its one [post] does. *)
Lemma createItem_after_validation (d : ItemRequest) (w : World) :
  nameMissing d = false ->
  exists r,
    createItem d w =
    (Ok r, snd (post (baseUrl ++ "/items") (itemToJs d) JUndefined w)).
Proof.
  intros H. unfold createItem, bind, tryCatch, dateNow. cbv beta iota. rewrite H.
  destruct (post _ _ _ w) as [[response|t] w1]; simpl.
  - unfold readProp. destruct (ar_data response); simpl; eexists; reflexivity.
  - eexists; reflexivity.
Qed.

(** C7.  A name that is empty once trimmed makes [createItem] return a
    failure envelope with the world untouched: no call of the wrapper, no
    call of the bridge, the request counter as it was.  A name that is not
    empty once trimmed makes it call the wrapper's [post] exactly once, which
    on a connected wrapper is exactly one POST of the bridge. *)
Theorem createItem_validation_gate (itemData : ItemRequest) (w : World) :
  (forall n, name itemData = Some n -> trim n = EmptyString ->
     exists r,
       createItem itemData w = (Ok r, w) /\
       success r = false /\ data r = None /\
       error_text r = Some "Item name is required") /\
  (forall n, name itemData = Some n -> trim n <> EmptyString ->
     exists r w',
       createItem itemData w = (Ok r, w') /\
       wrapperCalls (trace w')
         = (wrapperCalls (trace w) ++ [(POST, "/api/v1/demo/items")])%list /\
       (isServiceConnected (apiServiceWrapper w) = true ->
        transportCalls (trace w')
          = (transportCalls (trace w)
             ++ [mkCall POST "/api/v1/demo/items" (Some (itemToJs itemData)) JUndefined])%list /\
        requestCount (apiServiceWrapper w') = S (requestCount (apiServiceWrapper w)))).
Proof.
  split.
  - intros n Hn Ht.
    assert (Hm : nameMissing itemData = true).
    { apply nameMissing_true. intros n' Hn'. congruence. }
    unfold createItem, bind, tryCatch, dateNow. cbv beta iota. rewrite Hm. simpl.
    eexists. split; [reflexivity|]. simpl. auto.
  - intros n Hn Ht.
    assert (Hm : nameMissing itemData = false).
    { destruct (nameMissing itemData) eqn:E; [|reflexivity].
      exfalso. apply Ht. now apply (proj1 (nameMissing_true itemData) E). }
    destruct (createItem_after_validation itemData w Hm) as [r Hr].
    exists r. eexists. split; [exact Hr|].
    pose proof (makeRequest_effects POST (baseUrl ++ "/items") (itemToJs itemData)
                  JUndefined w) as (Hw & Hc & _).
    split; [exact Hw|exact Hc].
Qed.

Lemma createItem_validation_gate_witness :
  (exists r,
      createItem (mkItemRequest (Some "   ") (Some "d")) world404 = (Ok r, world404) /\
      success r = false /\ data r = None /\
      error_text r = Some "Item name is required") /\
  (exists r w',
      createItem sampleItem world404 = (Ok r, w') /\
      wrapperCalls (trace w') = [(POST, "/api/v1/demo/items")] /\
      transportCalls (trace w')
        = [mkCall POST "/api/v1/demo/items" (Some (itemToJs sampleItem)) JUndefined] /\
      requestCount (apiServiceWrapper w') = 1%nat).
Proof.
  split.
  - apply (proj1 (createItem_validation_gate (mkItemRequest (Some "   ") (Some "d"))
                    world404) "   "); reflexivity.
  - destruct (proj2 (createItem_validation_gate sampleItem world404) "ok")
      as (r & w' & Hr & Hw & Hc); [reflexivity | discriminate |].
    exists r, w'. destruct (Hc eq_refl) as [Ht Hn]. auto.
Defined.

(** ** Validation *)

Lemma nameErrors_cases (d : ItemRequest) :
  (nameErrors d = [] /\
   forall n, name d = Some n -> trim n <> EmptyString /\ strLength n <= 100) \/
  (nameErrors d = ["Name is required"] /\
   exists n, name d = Some n /\ trim n = EmptyString) \/
  (nameErrors d = ["Name must be 100 characters or less"] /\
   exists n, name d = Some n /\ trim n <> EmptyString /\ 100 < strLength n).
Proof.
  unfold nameErrors. destruct (name d) as [n|].
  - destruct (isEmptyString (trim n)) eqn:He.
    + right; left. split; [reflexivity|]. exists n.
      split; [reflexivity | now apply isEmptyString_true].
    + apply isEmptyString_false in He.
      destruct (100 <? strLength n) eqn:Hl.
      * right; right. apply Z.ltb_lt in Hl. split; [reflexivity|]. now exists n.
      * left. apply Z.ltb_ge in Hl. split; [reflexivity|]. now intros n' [= <-].
  - left. split; [reflexivity | discriminate].
Qed.

Lemma descriptionErrors_cases (d : ItemRequest) :
  (descriptionErrors d = [] /\
   forall s, description d = Some s -> strLength s <= 500) \/
  (descriptionErrors d = ["Description must be 500 characters or less"] /\
   exists s, description d = Some s /\ 500 < strLength s).
Proof.
  unfold descriptionErrors. destruct (description d) as [s|].
  - destruct (500 <? strLength s) eqn:Hl.
    + right. apply Z.ltb_lt in Hl. split; [reflexivity|]. now exists s.
    + left. apply Z.ltb_ge in Hl. split; [reflexivity|]. now intros s' [= <-].
  - left. split; [reflexivity | discriminate].
Qed.

(** C8, as amended.  [validateItemData] is a function of its argument
    alone.  The result is valid exactly when its error list is empty, which
    is exactly when a name that is present is non-empty once trimmed and at
    most 100 long and a description that is present is at most 500 long; an
    absent name is accepted.  Of the two name rules only the first broken
    one is reported: the length message appears only for a name that is
    non-empty once trimmed.  The name message and the description message
    accumulate.  The three sample inputs give the stated results. *)
Theorem validateItemData_rules :
  (forall d,
     let v := validateItemData d in
     (isValid v = true <-> errors v = []) /\
     (isValid v = true <->
        (forall n, name d = Some n -> trim n <> EmptyString /\ strLength n <= 100) /\
        (forall s, description d = Some s -> strLength s <= 500)) /\
     (In "Name is required" (errors v) <->
        exists n, name d = Some n /\ trim n = EmptyString) /\
     (In "Name must be 100 characters or less" (errors v) <->
        exists n, name d = Some n /\ trim n <> EmptyString /\ 100 < strLength n) /\
     (In "Description must be 500 characters or less" (errors v) <->
        exists s, description d = Some s /\ 500 < strLength s)) /\
  validateItemData (mkItemRequest (Some "") None)
    = mkValidation false ["Name is required"] /\
  validateItemData (mkItemRequest (Some "ok") (Some (repeatChar "x" 501)))
    = mkValidation false ["Description must be 500 characters or less"] /\
  validateItemData (mkItemRequest (Some "ok") (Some "short")) = mkValidation true [] /\
  validateItemData (mkItemRequest (Some "") (Some (repeatChar "x" 501)))
    = mkValidation false
        ["Name is required"; "Description must be 500 characters or less"].
Proof.
  split; [|repeat split; vm_compute; reflexivity].
  intros d v. subst v. unfold validateItemData. simpl.
  destruct (nameErrors_cases d) as [[-> Hn]|[[-> Hn]|[-> Hn]]];
    destruct (descriptionErrors_cases d) as [[-> Hd]|[-> Hd]]; simpl;
    repeat split; intros; try discriminate; try reflexivity; auto;
    try (exfalso; contradict_rules; fail);
    try (contradict_rules; fail);
    try (simpl; tauto).
Qed.

Lemma validateItemData_rules_witness :
  isValid (validateItemData sampleItem) = true.
Proof.
  apply (proj2 (proj1 (proj2 (proj1 validateItemData_rules sampleItem)))).
  split.
  - intros n [= <-]. split; [discriminate | vm_compute; discriminate].
  - intros s [= <-]. vm_compute. discriminate.
Defined.

(** C8 as stated fails.  A name of 101 spaces breaks both name rules and
    only the first is reported, with or without a description that is too
    long; and a request with no name at all is valid. *)
Lemma validateItemData_counterexample :
  trim (repeatChar " " 101) = EmptyString /\
  100 < strLength (repeatChar " " 101) /\
  validateItemData (mkItemRequest (Some (repeatChar " " 101)) None)
    = mkValidation false ["Name is required"] /\
  validateItemData (mkItemRequest (Some (repeatChar " " 101)) (Some (repeatChar "x" 501)))
    = mkValidation false
        ["Name is required"; "Description must be 500 characters or less"] /\
  validateItemData (mkItemRequest None (Some "short")) = mkValidation true [].
Proof.
  repeat split; vm_compute; reflexivity.
Qed.

(** ** The reachability checker *)

(** The record a probe outcome is turned into. *)
Lemma checkCommunityStatus_run (w : World) :
  let outcome := fst (settle (network w (fetchCount (trace w)))) in
  let ms := snd (settle (network w (fetchCount (trace w)))) in
  let w' :=
    mkWorld (now w + ms) (trace w ++ [EvFetch targetUrl]) (apiServiceWrapper w)
      (mkExternal (S (checkCount (externalApiService w)))) (network w) in
  checkCommunityStatus w =
  (Ok match outcome with
      | FetchResolved status =>
          mkOperationResult true
            (Some (mkApiCheckResult targetUrl online (Some ms) (now w + ms)
                     (statusOrNull status) None))
            None (Some (mkTiming (now w) (now w + ms) ms))
      | FetchRejected t =>
          mkOperationResult false
            (Some (mkApiCheckResult targetUrl (fst (classifyThrown t)) (Some ms)
                     (now w + ms) None (Some (snd (classifyThrown t)))))
            (Some (snd (classifyThrown t)))
            (Some (mkTiming (now w) (now w + ms) ms))
      end, w').
Proof.
  unfold checkCommunityStatus, bind, dateNow, incrementCheckCount, fetchWithSignal.
  simpl.
  destruct (settle (network w (fetchCount (trace w)))) as [[status|t] ms]; simpl;
    replace (now w + ms - now w) with ms by lia.
  - reflexivity.
  - destruct (classifyThrown t); reflexivity.
Qed.

Lemma classifyThrown_error_instance (ename emessage : string) :
  (ename = "AbortError" ->
   classifyThrown (ThrownError ename emessage)
     = (error, "Request timeout after 10 seconds")) /\
  (ename <> "AbortError" -> networkStyle emessage ->
   classifyThrown (ThrownError ename emessage)
     = (offline, "Network error - site may be down or unreachable")) /\
  (ename <> "AbortError" -> ~ networkStyle emessage ->
   classifyThrown (ThrownError ename emessage) = (offline, emessage)).
Proof.
  unfold classifyThrown, networkStyle.
  destruct (String.eqb ename "AbortError") eqn:Ea.
  - apply String.eqb_eq in Ea. repeat split; intros; congruence.
  - apply String.eqb_neq in Ea.
    split; [intros; contradiction|].
    destruct (includes emessage "NetworkError") eqn:E1; cbv [orb].
    + split; [reflexivity|]. intros _ H. exfalso. apply H. left.
      apply (proj1 (includes_spec _ _) E1).
    + destruct (includes emessage "Failed to fetch") eqn:E2.
      * split; [reflexivity|]. intros _ H. exfalso. apply H. right.
        apply (proj1 (includes_spec _ _) E2).
      * split; [|reflexivity].
        intros _ [H|H]; apply (proj2 (includes_spec _ _)) in H; congruence.
Qed.

Lemma settle_abort (nb : NetBehaviour) :
  nb = NetHangs \/
  (exists status latency, nb = NetResponds status latency /\ abortDeadline <= latency) \/
  (exists t latency, nb = NetFails t latency /\ abortDeadline <= latency) ->
  settle nb = (FetchRejected abortError, abortDeadline).
Proof.
  intros [->|[(status & latency & -> & H)|(t & latency & -> & H)]]; simpl;
    try reflexivity; apply Z.ltb_ge in H; now rewrite H.
Qed.

(** C4, as amended.  A probe that completes is [online] whatever its status
    code; a probe not settled within 10 seconds, and any rejection with an
    [Error] named [AbortError], is [error] with the exact timeout message;
    a rejection with another [Error] is [offline], with the fixed network
    text when its message is network-style and with its own message
    otherwise; a rejection with a value that is not an [Error] is [offline]
    with the text [Unknown error]. *)
Theorem checkCommunityStatus_classification (w : World) :
  let nb := network w (fetchCount (trace w)) in
  exists r cr w',
    checkCommunityStatus w = (Ok r, w') /\ data r = Some cr /\
    (forall status latency,
        nb = NetResponds status latency -> latency < abortDeadline ->
        cr_status cr = online /\ success r = true) /\
    (nb = NetHangs \/
     (exists status latency, nb = NetResponds status latency /\ abortDeadline <= latency) \/
     (exists t latency, nb = NetFails t latency /\ abortDeadline <= latency) ->
     cr_status cr = error /\ cr_error cr = Some "Request timeout after 10 seconds") /\
    (forall ename emessage latency,
        nb = NetFails (ThrownError ename emessage) latency -> latency < abortDeadline ->
        (ename = "AbortError" ->
         cr_status cr = error /\ cr_error cr = Some "Request timeout after 10 seconds") /\
        (ename <> "AbortError" -> networkStyle emessage ->
         cr_status cr = offline /\
         cr_error cr = Some "Network error - site may be down or unreachable") /\
        (ename <> "AbortError" -> ~ networkStyle emessage ->
         cr_status cr = offline /\ cr_error cr = Some emessage)) /\
    (forall t latency,
        nb = NetFails t latency -> latency < abortDeadline -> instanceofError t = false ->
        cr_status cr = offline /\ cr_error cr = Some "Unknown error").
Proof.
  intros nb. rewrite checkCommunityStatus_run. fold nb.
  destruct (settle nb) as [[status|t] ms] eqn:Hs; simpl;
    (eexists; eexists; eexists; split; [reflexivity|]);
    (split; [reflexivity|]); simpl.
  - split; [auto|]. split.
    + intros H. rewrite (settle_abort nb H) in Hs. discriminate.
    + split.
      * intros ename emessage latency Hn Hl. rewrite Hn in Hs. simpl in Hs.
        apply Z.ltb_lt in Hl. rewrite Hl in Hs. discriminate.
      * intros t latency Hn Hl. rewrite Hn in Hs. simpl in Hs.
        apply Z.ltb_lt in Hl. rewrite Hl in Hs. discriminate.
  - split.
    + intros status latency Hn Hl. rewrite Hn in Hs. simpl in Hs.
      apply Z.ltb_lt in Hl. rewrite Hl in Hs. discriminate.
    + split.
      * intros H. rewrite (settle_abort nb H) in Hs. injection Hs as <- _.
        split; reflexivity.
      * split.
        -- intros ename emessage latency Hn Hl. rewrite Hn in Hs. simpl in Hs.
           apply Z.ltb_lt in Hl. rewrite Hl in Hs. injection Hs as <- _.
           destruct (classifyThrown_error_instance ename emessage) as (Ha & Hb & Hc).
           repeat split; intros;
             first [rewrite Ha by assumption | rewrite Hb by assumption
                   | rewrite Hc by assumption]; reflexivity.
        -- intros t' latency Hn Hl Hi. rewrite Hn in Hs. simpl in Hs.
           apply Z.ltb_lt in Hl. rewrite Hl in Hs. injection Hs as <- _.
           destruct t'; [discriminate| |]; split; reflexivity.
Qed.

Lemma checkCommunityStatus_classification_witness :
  (exists r cr w',
      checkCommunityStatus (initialWorld hangingNetwork) = (Ok r, w') /\
      data r = Some cr /\
      cr_status cr = error /\ cr_error cr = Some "Request timeout after 10 seconds") /\
  (exists r cr w',
      checkCommunityStatus (initialWorld quietNetwork) = (Ok r, w') /\
      data r = Some cr /\ cr_status cr = online /\ success r = true) /\
  (exists r cr w',
      checkCommunityStatus (initialWorld failingNetwork) = (Ok r, w') /\
      data r = Some cr /\ cr_status cr = offline /\
      cr_error cr = Some "Network error - site may be down or unreachable") /\
  (exists r cr w',
      checkCommunityStatus (initialWorld loadFailedNetwork) = (Ok r, w') /\
      data r = Some cr /\ cr_status cr = offline /\ cr_error cr = Some "Load failed") /\
  (exists r cr w',
      checkCommunityStatus (initialWorld objectRejectingNetwork) = (Ok r, w') /\
      data r = Some cr /\ cr_status cr = offline /\ cr_error cr = Some "Unknown error").
Proof.
  split; [|split; [|split; [|split]]].
  - destruct (checkCommunityStatus_classification (initialWorld hangingNetwork))
      as (r & cr & w' & Hr & Hd & _ & Habort & _).
    exists r, cr, w'. split; [exact Hr|]. split; [exact Hd|].
    apply Habort. left. reflexivity.
  - destruct (checkCommunityStatus_classification (initialWorld quietNetwork))
      as (r & cr & w' & Hr & Hd & Honline & _).
    exists r, cr, w'. split; [exact Hr|]. split; [exact Hd|].
    apply (Honline 0 40); reflexivity.
  - destruct (checkCommunityStatus_classification (initialWorld failingNetwork))
      as (r & cr & w' & Hr & Hd & _ & _ & Herr & _).
    exists r, cr, w'. split; [exact Hr|]. split; [exact Hd|].
    destruct (Herr "TypeError" "Failed to fetch" 5) as (_ & Hnet & _);
      [reflexivity | reflexivity |].
    apply Hnet; [discriminate|]. right. now exists "", "".
  - destruct (checkCommunityStatus_classification (initialWorld loadFailedNetwork))
      as (r & cr & w' & Hr & Hd & _ & _ & Herr & _).
    exists r, cr, w'. split; [exact Hr|]. split; [exact Hd|].
    destruct (Herr "TypeError" "Load failed" 5) as (_ & _ & Hother);
      [reflexivity | reflexivity |].
    apply Hother; [discriminate|].
    intros [(a & b & H)|(a & b & H)].
    + assert (Hi : includes "Load failed" "NetworkError" = true)
        by (apply includes_spec; now exists a, b).
      vm_compute in Hi. discriminate Hi.
    + assert (Hi : includes "Load failed" "Failed to fetch" = true)
        by (apply includes_spec; now exists a, b).
      vm_compute in Hi. discriminate Hi.
  - destruct (checkCommunityStatus_classification (initialWorld objectRejectingNetwork))
      as (r & cr & w' & Hr & Hd & _ & _ & _ & Hvalue).
    exists r, cr, w'. split; [exact Hr|]. split; [exact Hd|].
    apply (Hvalue (ThrownOther (JObj [("message", JStr "boom")])) 5); reflexivity.
Defined.

(** C4 as stated fails: a probe rejected with a plain object whose
    [message] is [boom] is reported [offline] with the text
    [Unknown error], not with that message. *)
Lemma checkCommunityStatus_raw_message_counterexample :
  exists r cr w',
    checkCommunityStatus (initialWorld objectRejectingNetwork) = (Ok r, w') /\
    data r = Some cr /\
    cr_status cr = offline /\
    cr_error cr = Some "Unknown error" /\
    cr_error cr <> Some "boom".
Proof.
  eexists; eexists; eexists. split; [vm_compute; reflexivity|].
  split; [reflexivity|]. split; [reflexivity|]. split; [reflexivity|]. discriminate.
Qed.

(** C9, as amended.  A check always returns a result; a result that is
    [online] has no error text, and a result that is [offline] or [error]
    has one, which is non-empty unless the probe was rejected with an
    [Error] whose own message is empty. *)
Theorem checkCommunityStatus_error_text (w : World) :
  exists r cr w',
    checkCommunityStatus w = (Ok r, w') /\ data r = Some cr /\
    (cr_status cr = online \/ cr_status cr = offline \/ cr_status cr = error) /\
    (cr_status cr = online -> cr_error cr = None) /\
    (cr_status cr = offline \/ cr_status cr = error ->
     exists text,
       cr_error cr = Some text /\
       (text = EmptyString ->
        exists ename latency,
          network w (fetchCount (trace w)) = NetFails (ThrownError ename EmptyString) latency)).
Proof.
  rewrite checkCommunityStatus_run.
  destruct (network w (fetchCount (trace w))) as [status latency|t latency|] eqn:Hn;
    simpl.
  - destruct (latency <? abortDeadline); simpl;
      (eexists; eexists; eexists; split; [reflexivity|]; split; [reflexivity|]); simpl.
    + split; [auto|]. split; [auto|]. intros [H|H]; discriminate.
    + split; [auto|]. split; [discriminate|]. intros _.
      eexists. split; [reflexivity|discriminate].
  - destruct (latency <? abortDeadline); simpl;
      (eexists; eexists; eexists; split; [reflexivity|]; split; [reflexivity|]); simpl.
    + destruct t as [ename emessage|e|v]; simpl.
      * destruct (String.eqb ename "AbortError"); simpl;
          [split; [auto|]; split; [discriminate|]; intros _;
           eexists; split; [reflexivity|discriminate]|].
        destruct (includes emessage "NetworkError" || includes emessage "Failed to fetch")%bool;
          simpl; (split; [auto|]; split; [discriminate|]; intros _;
                  eexists; split; [reflexivity|]); [discriminate|].
        intros ->. now exists ename, latency.
      * split; [auto|]. split; [discriminate|]. intros _.
        eexists. split; [reflexivity|discriminate].
      * split; [auto|]. split; [discriminate|]. intros _.
        eexists. split; [reflexivity|discriminate].
    + split; [auto|]. split; [discriminate|]. intros _.
      eexists. split; [reflexivity|discriminate].
  - eexists; eexists; eexists. split; [reflexivity|]. split; [reflexivity|]. simpl.
    split; [auto|]. split; [discriminate|]. intros _.
    eexists. split; [reflexivity|discriminate].
Qed.

Lemma checkCommunityStatus_error_text_witness :
  (exists r cr w' text,
      checkCommunityStatus (initialWorld failingNetwork) = (Ok r, w') /\
      data r = Some cr /\ cr_status cr = offline /\
      cr_error cr = Some text /\ text <> EmptyString) /\
  (exists r cr w',
      checkCommunityStatus (initialWorld quietNetwork) = (Ok r, w') /\
      data r = Some cr /\ cr_status cr = online /\ cr_error cr = None).
Proof.
  split.
  - destruct (checkCommunityStatus_error_text (initialWorld failingNetwork))
      as (r & cr & w' & Hr & Hd & _ & _ & Htext).
    assert (Hs : cr_status cr = offline).
    { vm_compute in Hr. injection Hr as <- _. injection Hd as <-. reflexivity. }
    destruct (Htext (or_introl Hs)) as (text & Ht & Hempty).
    exists r, cr, w', text. repeat split; try assumption.
    intros He. destruct (Hempty He) as (ename & latency & H). discriminate H.
  - destruct (checkCommunityStatus_error_text (initialWorld quietNetwork))
      as (r & cr & w' & Hr & Hd & _ & Honline & _).
    assert (Hs : cr_status cr = online).
    { vm_compute in Hr. injection Hr as <- _. injection Hd as <-. reflexivity. }
    exists r, cr, w'. auto.
Defined.

(** C9 as stated fails: a probe rejected with an [Error] whose message is
    empty gives an [offline] result whose error text is the empty string. *)
Lemma checkCommunityStatus_empty_text_counterexample :
  exists r cr w',
    checkCommunityStatus (initialWorld emptyMessageNetwork) = (Ok r, w') /\
    data r = Some cr /\
    cr_status cr = offline /\
    cr_error cr = Some EmptyString.
Proof.
  eexists; eexists; eexists. split; [vm_compute; reflexivity|].
  split; [reflexivity|]. split; reflexivity.
Qed.

(** ** Repeated checks *)

Lemma checkCommunityStatus_completes (w : World) :
  exists r d w',
    checkCommunityStatus w = (Ok r, w') /\ data r = Some d /\
    trace w' = (trace w ++ [EvFetch targetUrl])%list.
Proof.
  rewrite checkCommunityStatus_run.
  destruct (fst (settle (network w (fetchCount (trace w)))));
    eexists; eexists; eexists; (split; [reflexivity|]); split; reflexivity.
Qed.

Lemma probeSchedule_step (i n : nat) (intervalMs : Z) :
  probeSchedule i (S n) intervalMs =
  ((if Nat.ltb 0 i then [EvSleep intervalMs] else []) ++ [EvFetch targetUrl]
   ++ probeSchedule (S i) n intervalMs)%list.
Proof. unfold probeSchedule. simpl. now rewrite <- app_assoc. Qed.

(** From the second iteration on, each iteration is a wait then a probe. *)
Lemma probeSchedule_later (i n : nat) (intervalMs : Z) :
  probeSchedule (S i) n intervalMs =
  flat_map (fun _ => [EvSleep intervalMs; EvFetch targetUrl]) (seq (S i) n).
Proof.
  revert i; induction n as [|n IH]; intros i; [reflexivity|].
  rewrite probeSchedule_step, IH. reflexivity.
Qed.

(** The loop over the real check: every iteration adds one result, no
    iteration throws, and the events are those of the schedule. *)
Lemma checkLoop_checkCommunityStatus (intervalMs : Z) (n : nat) :
  forall (i : nat) (acc : list ApiCheckResult) (w : World),
  exists more w',
    checkLoop checkCommunityStatus intervalMs n i acc w = ((acc ++ more, None), w')%list /\
    List.length more = n /\
    trace w' = (trace w ++ probeSchedule i n intervalMs)%list.
Proof.
  induction n as [|n IH]; intros i acc w.
  - exists [], w. simpl. rewrite !app_nil_r. auto.
  - cbn [checkLoop].
    set (w1 := if Nat.ltb 0 i then snd (sleep intervalMs w) else w).
    assert (Ht : trace w1
                 = (trace w ++ (if Nat.ltb 0 i then [EvSleep intervalMs] else []))%list).
    { subst w1. destruct (Nat.ltb 0 i); simpl; [reflexivity | now rewrite app_nil_r]. }
    destruct (checkCommunityStatus_completes w1) as (r & d & w2 & Hr & Hd & Ht2).
    rewrite Hr, Hd.
    destruct (IH (S i) (acc ++ [d])%list w2) as (more & w' & Hl & Hn & Ht').
    exists (d :: more), w'. split; [|split].
    + rewrite Hl. now rewrite <- app_assoc.
    + simpl. now rewrite Hn.
    + rewrite Ht', Ht2, Ht, probeSchedule_step. now rewrite <- !app_assoc.
Qed.

(** Results pushed onto the array are never taken back. *)
Lemma checkLoop_accumulates (check : M (OperationResult ApiCheckResult)) (intervalMs : Z)
    (n : nat) :
  forall (i : nat) (acc : list ApiCheckResult) (w : World),
  exists more, fst (fst (checkLoop check intervalMs n i acc w)) = (acc ++ more)%list.
Proof.
  induction n as [|n IH]; intros i acc w.
  - exists []. simpl. now rewrite app_nil_r.
  - cbn [checkLoop].
    destruct (check _) as [[r|t] w2].
    + destruct (data r) as [d|].
      * destruct (IH (S i) (acc ++ [d])%list w2) as [more H].
        exists (d :: more). rewrite H. now rewrite <- app_assoc.
      * apply IH.
    + exists []. simpl. now rewrite app_nil_r.
Qed.

(** C5.  [performMultipleChecks] over [count] checks returns [count]
    results with [success] set, having sent [count] probes in order with a
    wait of [intervalMs] before each but the first; whatever single check is plugged in, the call
    returns and never throws, a check that throws ends the loop with the
    results gathered so far in [data] and its message in [error], and
    results once gathered are kept.  Three checks 100 ms apart against a
    network that always fails give three [offline] results, an online count
    of 0 and two waits. *)
Theorem performMultipleChecks_sequence :
  (forall (count intervalMs : Z) (w : World),
      exists r results w',
        performMultipleChecks count intervalMs w = (Ok r, w') /\
        success r = true /\ error_text r = None /\
        data r = Some results /\ List.length results = Z.to_nat count /\
        trace w' = (trace w ++ probeSchedule 0 (Z.to_nat count) intervalMs)%list) /\
  (forall (n : nat) (intervalMs : Z),
      probeSchedule 0 (S n) intervalMs =
      EvFetch targetUrl
        :: flat_map (fun _ => [EvSleep intervalMs; EvFetch targetUrl]) (seq 1 n)) /\
  (forall check count intervalMs w,
      exists r results w',
        performMultipleChecksWith check intervalMs count w = (Ok r, w') /\
        data r = Some results /\
        results = fst (fst (checkLoop check intervalMs (Z.to_nat count) 0 [] w)) /\
        match snd (fst (checkLoop check intervalMs (Z.to_nat count) 0 [] w)) with
        | None => success r = true /\ error_text r = None
        | Some t =>
            success r = false /\
            error_text r = Some (messageOr t "Multiple checks failed")
        end) /\
  (forall check intervalMs n i acc w,
      exists more,
        fst (fst (checkLoop check intervalMs n i acc w)) = (acc ++ more)%list) /\
  (exists r first w',
      performMultipleChecksWith flakyCheck 100 3 (initialWorld quietNetwork) = (Ok r, w') /\
      success r = false /\ data r = Some [first] /\ cr_status first = online /\
      error_text r = Some "boom") /\
  (exists r results w',
      performMultipleChecks 3 100 (initialWorld failingNetwork) = (Ok r, w') /\
      data r = Some results /\ List.length results = 3%nat /\
      Forall (fun cr => cr_status cr = offline) results /\
      onlineCount results = 0%nat /\
      trace w' = [EvFetch targetUrl; EvSleep 100; EvFetch targetUrl;
                  EvSleep 100; EvFetch targetUrl] /\
      200 <= now w' - now (initialWorld failingNetwork)).
Proof.
  split; [|split; [|split; [|split; [|split]]]].
  - intros count intervalMs w.
    unfold performMultipleChecks, performMultipleChecksWith, bind, dateNow.
    cbv beta iota.
    destruct (checkLoop_checkCommunityStatus intervalMs (Z.to_nat count) 0 [] w)
      as (more & w' & Hl & Hn & Ht).
    rewrite Hl. simpl.
    eexists; eexists; eexists. split; [reflexivity|]. simpl. auto.
  - intros n intervalMs. rewrite probeSchedule_step, probeSchedule_later. reflexivity.
  - intros check count intervalMs w.
    unfold performMultipleChecksWith, bind, dateNow. cbv beta iota.
    destruct (checkLoop check intervalMs (Z.to_nat count) 0 [] w)
      as [[results [t|]] w']; simpl;
      eexists; eexists; eexists; (split; [reflexivity|]); simpl; auto.
  - intros check intervalMs n i acc w. apply checkLoop_accumulates.
  - eexists; eexists; eexists. split; [vm_compute; reflexivity|]. simpl. auto.
  - eexists; eexists; eexists. split; [vm_compute; reflexivity|].
    split; [reflexivity|]. split; [reflexivity|].
    split; [repeat constructor|]. split; [reflexivity|].
    split; [reflexivity|]. vm_compute. discriminate.
Qed.

(** * Further properties of the request wrapper *)

Lemma createApiError_message (e : RaisedError) (status : option Z)
    (code : option string) (details : option ErrorDetails) :
  ae_message (createApiError e status code details) <> EmptyString.
Proof.
  unfold createApiError. simpl. destruct (re_message e) as [m|]; [|discriminate].
  destruct (String.eqb m "") eqn:E; [discriminate|]. now apply String.eqb_neq.
Qed.

Lemma handleApiError_shape (e : RaisedError) (responseTime : Z) :
  ae_message (handleApiError e responseTime) <> EmptyString /\
  (exists code status,
      ae_code (handleApiError e responseTime) = Some code /\
      ae_status (handleApiError e responseTime) = Some status) /\
  ae_details (handleApiError e responseTime)
    = Some (mkErrorDetails (option_map resp_data (re_response e)) responseTime).
Proof.
  unfold handleApiError.
  destruct (re_response e) as [r|]; [|destruct (isNetworkCode e); [|destruct (mentionsTimeout e)]];
    (split; [apply createApiError_message|]); simpl; split; eauto.
Qed.

(** What [makeRequest] can end with. *)
Lemma makeRequest_outcome (method : Verb) (path : string) (payload options : JsVal)
    (w : World) :
  (exists response, fst (makeRequest method path payload options w) = Ok response) \/
  (exists e, fst (makeRequest method path payload options w) = Throw (ThrownApiError e) /\
             ae_message e <> EmptyString /\
             exists code status, ae_code e = Some code /\ ae_status e = Some status).
Proof.
  destruct (isServiceConnected (apiServiceWrapper w)) eqn:Hc.
  - unfold isServiceConnected in Hc. apply andb_true_iff in Hc as [Hi Hs].
    destruct (apiService (apiServiceWrapper w)) as [t|] eqn:Ht; [|discriminate].
    rewrite (makeRequest_connected method path payload options w t Hi Ht).
    destruct (t _ _) as [raw ms|e ms]; simpl.
    + left. eauto.
    + right. exists (handleApiError e ms).
      destruct (handleApiError_shape e ms) as (Hm & Hcs & _). auto.
  - rewrite makeRequest_not_connected by assumption. simpl.
    right. eexists. split; [reflexivity|]. simpl. split; [discriminate|eauto].
Qed.



(** X2.  A response status outside the seven named ones is classified
    [HTTP_ERROR] with that status, and the message computed for it is the
    server's [detail] or [message] when there is one and otherwise the
    generic text that spells the status out. *)
Theorem unlisted_status_is_http_error (status : Z) (body : JsVal) :
  ~ In status [400; 401; 403; 404; 422; 500; 503] ->
  getErrorCode status = "HTTP_ERROR" /\
  getErrorMessage status body =
    (if truthy (serverMessage body) then serverMessage body
     else JStr ("HTTP " ++ numToString status ++ " error occurred")) /\
  (forall e r responseTime,
      re_response e = Some r -> resp_status r = status ->
      ae_code (handleApiError e responseTime) = Some "HTTP_ERROR" /\
      ae_status (handleApiError e responseTime) = Some status).
Proof.
  intros Hn. simpl in Hn.
  assert (H400 : (status =? 400) = false) by (apply Z.eqb_neq; intros ->; tauto).
  assert (H401 : (status =? 401) = false) by (apply Z.eqb_neq; intros ->; tauto).
  assert (H403 : (status =? 403) = false) by (apply Z.eqb_neq; intros ->; tauto).
  assert (H404 : (status =? 404) = false) by (apply Z.eqb_neq; intros ->; tauto).
  assert (H422 : (status =? 422) = false) by (apply Z.eqb_neq; intros ->; tauto).
  assert (H500 : (status =? 500) = false) by (apply Z.eqb_neq; intros ->; tauto).
  assert (H503 : (status =? 503) = false) by (apply Z.eqb_neq; intros ->; tauto).
  assert (Hcode : getErrorCode status = "HTTP_ERROR").
  { unfold getErrorCode. now rewrite H400, H401, H403, H404, H422, H500, H503. }
  split; [exact Hcode|]. split.
  - unfold getErrorMessage, jsOr.
    now rewrite H400, H401, H403, H404, H422, H500, H503.
  - intros e r responseTime Hr Hs. unfold handleApiError. rewrite Hr. simpl.
    rewrite Hs, Hcode. auto.
Qed.

Lemma unlisted_status_is_http_error_witness :
  getErrorCode 418 = "HTTP_ERROR" /\
  getErrorMessage 418 JNull = JStr "HTTP 418 error occurred".
Proof.
  destruct (unlisted_status_is_http_error 418 JNull) as (Hc & Hm & _).
  - simpl. intros H. repeat destruct H as [H|H]; try discriminate H. exact H.
  - split; [exact Hc|]. rewrite Hm. reflexivity.
Defined.

(** X3.  On a connected wrapper the time the bridge call took is what the
    request reports: as [responseTime] of the response when the call
    resolves, and as [details.responseTime] of the thrown error, beside the
    body of the rejected response, when it rejects. *)
Theorem request_reports_call_time (method : Verb) (path : string)
    (payload options : JsVal) (w : World) (t : Transport) :
  isConnected (apiServiceWrapper w) = true ->
  apiService (apiServiceWrapper w) = Some t ->
  (forall raw ms,
      t (transportCalls (trace w)) (bridgeCall method path payload options)
        = Resolved raw ms ->
      exists response w',
        makeRequest method path payload options w = (Ok response, w') /\
        ar_responseTime response = ms /\
        ar_timestamp response = now w + ms /\ now w' = now w + ms) /\
  (forall e ms,
      t (transportCalls (trace w)) (bridgeCall method path payload options)
        = Rejected e ms ->
      exists err w',
        makeRequest method path payload options w = (Throw (ThrownApiError err), w') /\
        ae_details err
          = Some (mkErrorDetails (option_map resp_data (re_response e)) ms) /\
        now w' = now w + ms).
Proof.
  intros Hi Hs. split.
  - intros raw ms H.
    rewrite (makeRequest_connected method path payload options w t Hi Hs), H.
    eexists; eexists. split; [reflexivity|]. simpl. auto.
  - intros e ms H.
    rewrite (makeRequest_connected method path payload options w t Hi Hs), H.
    eexists; eexists. split; [reflexivity|]. simpl.
    split; [apply handleApiError_shape | reflexivity].
Qed.

Lemma request_reports_call_time_witness :
  exists err w',
    makeRequest GET "/api/v1/demo/items" JUndefined JUndefined world404
      = (Throw (ThrownApiError err), w') /\
    ae_details err
      = Some (mkErrorDetails (Some (JObj [("detail", JStr "Item not found")])) 7) /\
    now w' = 7.
Proof.
  apply (proj2 (request_reports_call_time GET "/api/v1/demo/items" JUndefined JUndefined
                  world404 (bridgeRejecting error404WithDetail) eq_refl eq_refl)
           error404WithDetail 7).
  reflexivity.
Defined.

(** X4.  [setServiceBridge(null)] leaves a wrapper whose [getStats()]
    reports [isConnected] true while [isServiceConnected()] answers false
    and every request is refused with [SERVICE_NOT_CONNECTED] and status
    503, whatever bridge was installed before; the request counter and the
    log of calls are not touched by it. *)
Theorem null_bridge_reports_connected (w : World) :
  let w0 := setServiceBridge None w in
  snd (getStats (apiServiceWrapper w0)) = true /\
  isServiceConnected (apiServiceWrapper w0) = false /\
  fst (getStats (apiServiceWrapper w0)) = requestCount (apiServiceWrapper w) /\
  trace w0 = trace w /\
  (forall method path payload options,
      exists e w',
        makeRequest method path payload options w0 = (Throw (ThrownApiError e), w') /\
        ae_code e = Some "SERVICE_NOT_CONNECTED" /\ ae_status e = Some 503 /\
        ae_message e = "API Service not connected" /\ ae_details e = None /\
        transportCalls (trace w') = transportCalls (trace w) /\
        requestCount (apiServiceWrapper w') = requestCount (apiServiceWrapper w)).
Proof.
  intros w0. repeat split.
  intros method path payload options.
  rewrite makeRequest_not_connected by reflexivity.
  eexists; eexists. split; [reflexivity|]. simpl.
  autorewrite with trace. auto 10.
Qed.

(** X5.  After [setServiceBridge(t)], whatever was installed before, a
    request makes exactly one call of [t], of the verb, path and options of
    the request, with the payload for [post] and [put] and without one for
    [get] and [delete]; it counts one more request; and it returns what [t]
    resolved with or throws the classification of what [t] rejected with. *)
Theorem connected_request_dispatch (method : Verb) (path : string)
    (payload options : JsVal) (t : Transport) (w : World) :
  let w0 := setServiceBridge (Some t) w in
  let c := mkCall method path
             (match method with POST | PUT => Some payload | _ => None end) options in
  let run := makeRequest method path payload options w0 in
  transportCalls (trace (snd run)) = (transportCalls (trace w) ++ [c])%list /\
  requestCount (apiServiceWrapper (snd run)) = S (requestCount (apiServiceWrapper w)) /\
  match t (transportCalls (trace w)) c with
  | Resolved raw ms => exists response, fst run = Ok response /\ ar_data response = raw
  | Rejected e ms => fst run = Throw (ThrownApiError (handleApiError e ms))
  end.
Proof.
  intros w0 c run. subst run.
  rewrite (makeRequest_connected method path payload options w0 t eq_refl eq_refl).
  assert (Hc : bridgeCall method path payload options = c) by (destruct method; reflexivity).
  rewrite Hc. change (trace w0) with (trace w).
  destruct (t (transportCalls (trace w)) c) as [raw ms|e ms]; simpl;
    autorewrite with trace; simpl; (split; [reflexivity|split; [reflexivity|]]).
  - eexists. split; reflexivity.
  - reflexivity.
Qed.

(** * Further properties of the demo operations *)

(** An operation whose local check refuses returns at once. *)
Lemma runDomainOp_refused (op : DomainOp) (w : World) :
  domainRequest op = None ->
  runDomainOp op w =
  (Ok (mkOperationResult false None (Some (localRefusal op))
         (Some (mkTiming (now w) (now w) (now w - now w)))), w).
Proof.
  destruct op as [|d|id d|id| |]; simpl; try discriminate.
  - destruct (nameMissing d) eqn:E; [intros _|discriminate].
    unfold createItem, bind, tryCatch, dateNow. cbv beta iota. rewrite E. reflexivity.
  - destruct (isEmptyString id) eqn:E; [intros _|discriminate].
    unfold updateItem, bind, tryCatch, dateNow. cbv beta iota. rewrite E. reflexivity.
  - destruct (isEmptyString id) eqn:E; [intros _|discriminate].
    unfold deleteItem, bind, tryCatch, dateNow. cbv beta iota. rewrite E. reflexivity.
Qed.

(** An operation whose local check passes is its one request followed by
    the reading of the body. *)
Lemma runDomainOp_requested (op : DomainOp) (w : World) (v : Verb) (p : string)
    (pl : JsVal) :
  domainRequest op = Some (v, p, pl) ->
  runDomainOp op w =
  match makeRequest v p pl JUndefined w with
  | (Ok response, w') => (Ok (bodyEnvelope op (ar_data response) (now w) (now w')), w')
  | (Throw t, w') =>
      (Ok (mkOperationResult false None (Some (messageOr t (domainFallback op)))
             (Some (mkTiming (now w) (now w') (now w' - now w)))), w')
  end.
Proof.
  destruct op as [|d|id d|id| |]; cbn [domainRequest runDomainOp].
  - intros [= <- <- <-].
    unfold getItems, get, bind, tryCatch, dateNow. cbv beta iota.
    change (baseUrl ++ "/items")%string with "/api/v1/demo/items".
    destruct (makeRequest GET "/api/v1/demo/items" JUndefined JUndefined w)
      as [[response|t] w']; [|reflexivity].
    unfold bodyEnvelope, unwrapBody. destruct (ar_data response); reflexivity.
  - destruct (nameMissing d) eqn:E; [discriminate|]. intros [= <- <- <-].
    unfold createItem, post, bind, tryCatch, dateNow. cbv beta iota. rewrite E.
    change (baseUrl ++ "/items")%string with "/api/v1/demo/items".
    destruct (makeRequest POST "/api/v1/demo/items" (itemToJs d) JUndefined w)
      as [[response|t] w']; [|reflexivity].
    unfold bodyEnvelope, unwrapBody. destruct (ar_data response); reflexivity.
  - destruct (isEmptyString id) eqn:E; [discriminate|]. intros H.
    assert (Hv : v = PUT) by congruence.
    assert (Hp : p = ("/api/v1/demo/items/" ++ id)%string) by congruence.
    assert (Hpl : pl = itemToJs d) by congruence. subst v p pl. clear H.
    unfold updateItem, put, bind, tryCatch, dateNow. cbv beta iota. rewrite E.
    change (baseUrl ++ "/items/" ++ id)%string with ("/api/v1/demo/items/" ++ id)%string.
    destruct (makeRequest PUT ("/api/v1/demo/items/" ++ id) (itemToJs d) JUndefined w)
      as [[response|t] w']; [|reflexivity].
    unfold bodyEnvelope, unwrapBody. destruct (ar_data response); reflexivity.
  - destruct (isEmptyString id) eqn:E; [discriminate|]. intros H.
    assert (Hv : v = DELETE) by congruence.
    assert (Hp : p = ("/api/v1/demo/items/" ++ id)%string) by congruence.
    assert (Hpl : pl = JUndefined) by congruence. subst v p pl. clear H.
    unfold deleteItem, delete, bind, tryCatch, dateNow. cbv beta iota. rewrite E.
    change (baseUrl ++ "/items/" ++ id)%string with ("/api/v1/demo/items/" ++ id)%string.
    destruct (makeRequest DELETE ("/api/v1/demo/items/" ++ id) JUndefined JUndefined w)
      as [[response|t] w']; reflexivity.
  - intros [= <- <- <-].
    unfold getStatus, get, bind, tryCatch, dateNow. cbv beta iota.
    change (baseUrl ++ "/status")%string with "/api/v1/demo/status".
    destruct (makeRequest GET "/api/v1/demo/status" JUndefined JUndefined w)
      as [[response|t] w']; reflexivity.
  - intros [= <- <- <-].
    unfold healthCheck, get, bind, tryCatch, dateNow. cbv beta iota.
    change (baseUrl ++ "/health")%string with "/api/v1/demo/health".
    destruct (makeRequest GET "/api/v1/demo/health" JUndefined JUndefined w)
      as [[response|t] w']; reflexivity.
Qed.

Lemma bodyEnvelope_shape (op : DomainOp) (raw : JsVal) (startTime endTime : Z) :
  timing (bodyEnvelope op raw startTime endTime)
    = Some (mkTiming startTime endTime (endTime - startTime)) /\
  match unwrapBody op raw with
  | Some payload =>
      success (bodyEnvelope op raw startTime endTime) = true /\
      data (bodyEnvelope op raw startTime endTime) = payload /\
      error_text (bodyEnvelope op raw startTime endTime) = None
  | None =>
      success (bodyEnvelope op raw startTime endTime) = false /\
      data (bodyEnvelope op raw startTime endTime) = None /\
      exists text,
        error_text (bodyEnvelope op raw startTime endTime) = Some text /\
        text <> EmptyString
  end.
Proof.
  unfold bodyEnvelope. destruct (unwrapBody op raw); simpl.
  - auto.
  - split; [reflexivity|]. split; [reflexivity|]. split; [reflexivity|].
    eexists. split; [reflexivity|]. destruct raw; discriminate.
Qed.

(** The world an operation leaves is the one its request leaves. *)
Lemma runDomainOp_world (op : DomainOp) (w : World) :
  snd (runDomainOp op w) =
  match domainRequest op with
  | Some (v, p, pl) => snd (makeRequest v p pl JUndefined w)
  | None => w
  end.
Proof.
  destruct (domainRequest op) as [[[v p] pl]|] eqn:Hreq.
  - rewrite (runDomainOp_requested op w v p pl Hreq).
    destruct (makeRequest v p pl JUndefined w) as [[response|t] w']; reflexivity.
  - now rewrite (runDomainOp_refused op w Hreq).
Qed.

Lemma domainRequest_none (op : DomainOp) :
  domainRequest op = None <->
  match op with
  | OpCreateItem d => forall n, name d = Some n -> trim n = EmptyString
  | OpUpdateItem id _ => id = EmptyString
  | OpDeleteItem id => id = EmptyString
  | _ => False
  end.
Proof.
  destruct op as [|d|id d|id| |]; simpl; try (split; [discriminate|contradiction]).
  - rewrite <- nameMissing_true. destruct (nameMissing d); split; congruence.
  - rewrite <- isEmptyString_true. destruct (isEmptyString id); split; congruence.
  - rewrite <- isEmptyString_true. destruct (isEmptyString id); split; congruence.
Qed.

Lemma domainFallback_nonempty (op : DomainOp) : domainFallback op <> EmptyString.
Proof. destruct op; discriminate. Qed.

Lemma localRefusal_nonempty (op : DomainOp) : localRefusal op <> EmptyString.
Proof. destruct op; discriminate. Qed.

(** X6.  No operation of the demo service throws: each returns an envelope
    with its own timing, [duration] being [endTime - startTime]; a success
    carries no error string, and a failure carries no data and an error
    string that is not empty. *)
Theorem domain_operations_return_envelopes (op : DomainOp) (w : World) :
  exists r w',
    runDomainOp op w = (Ok r, w') /\
    timing r = Some (mkTiming (now w) (now w') (now w' - now w)) /\
    match success r with
    | true => error_text r = None
    | false =>
        data r = None /\
        exists text, error_text r = Some text /\ text <> EmptyString
    end.
Proof.
  destruct (domainRequest op) as [[[v p] pl]|] eqn:Hreq.
  - rewrite (runDomainOp_requested op w v p pl Hreq).
    pose proof (makeRequest_outcome v p pl JUndefined w) as Ho.
    destruct (makeRequest v p pl JUndefined w) as [[response|t] w'].
    + eexists; eexists. split; [reflexivity|].
      destruct (bodyEnvelope_shape op (ar_data response) (now w) (now w')) as (Ht & Hu).
      split; [exact Ht|].
      destruct (unwrapBody op (ar_data response)).
      * destruct Hu as (-> & _ & He). exact He.
      * destruct Hu as (-> & Hd & He). auto.
    + eexists; eexists. split; [reflexivity|]. simpl. split; [reflexivity|].
      split; [reflexivity|]. eexists. split; [reflexivity|].
      destruct Ho as [[response Ho]|(e & Ho & _)]; simpl in Ho; [discriminate|].
      injection Ho as ->. simpl. apply domainFallback_nonempty.
  - rewrite (runDomainOp_refused op w Hreq).
    eexists; eexists. split; [reflexivity|]. simpl. split; [reflexivity|].
    split; [reflexivity|]. eexists. split; [reflexivity|].
    apply localRefusal_nonempty.
Qed.

(** X7.  Each operation hands the wrapper exactly one request, of its own
    verb and sub-path: [GET /items], [POST /items], [PUT /items/{id}],
    [DELETE /items/{id}], [GET /status], [GET /health] under
    [/api/v1/demo]; on a connected wrapper that is exactly one call of the
    bridge, with the item as payload for [POST] and [PUT].  An operation
    refused by its local check (a missing or blank name for create, an
    empty id for update and delete) leaves the world as it was and reports
    the text of that check. *)
Theorem domain_operation_requests (op : DomainOp) (w : World) :
  match domainRequest op with
  | Some (v, p, pl) =>
      let w' := snd (runDomainOp op w) in
      wrapperCalls (trace w') = (wrapperCalls (trace w) ++ [(v, p)])%list /\
      if isServiceConnected (apiServiceWrapper w) then
        transportCalls (trace w')
          = (transportCalls (trace w) ++ [bridgeCall v p pl JUndefined])%list /\
        requestCount (apiServiceWrapper w') = S (requestCount (apiServiceWrapper w))
      else
        transportCalls (trace w') = transportCalls (trace w) /\
        requestCount (apiServiceWrapper w') = requestCount (apiServiceWrapper w)
  | None =>
      exists r,
        runDomainOp op w = (Ok r, w) /\
        success r = false /\ error_text r = Some (localRefusal op)
  end.
Proof.
  destruct (domainRequest op) as [[[v p] pl]|] eqn:Hreq.
  - pose proof (makeRequest_effects v p pl JUndefined w) as (Hw & Hc & Hn).
    assert (Hs : snd (runDomainOp op w) = snd (makeRequest v p pl JUndefined w))
      by (now rewrite runDomainOp_world, Hreq).
    cbv zeta. rewrite Hs. split; [exact Hw|].
    destruct (isServiceConnected (apiServiceWrapper w)); auto.
  - rewrite (runDomainOp_refused op w Hreq). eexists. split; [reflexivity|]. auto.
Qed.

(** X8.  The local checks are these and no others: an operation returns
    without calling the wrapper exactly when it is [createItem] with a name
    that is absent or blank once trimmed, or [updateItem] or [deleteItem]
    with the empty id; the three read operations always call it, and no
    length is checked before a request. *)
Theorem wrapper_skipped_exactly_when (op : DomainOp) (w : World) :
  wrapperCalls (trace (snd (runDomainOp op w))) = wrapperCalls (trace w) <->
  match op with
  | OpCreateItem d => forall n, name d = Some n -> trim n = EmptyString
  | OpUpdateItem id _ => id = EmptyString
  | OpDeleteItem id => id = EmptyString
  | _ => False
  end.
Proof.
  rewrite <- domainRequest_none, runDomainOp_world.
  destruct (domainRequest op) as [[[v p] pl]|].
  - pose proof (makeRequest_effects v p pl JUndefined w) as (Hw & _).
    rewrite Hw. split; [|discriminate].
    intros H. apply (f_equal (@List.length _)) in H.
    rewrite length_app in H. simpl in H. lia.
  - split; reflexivity.
Qed.

Lemma wrapper_skipped_exactly_when_witness :
  (wrapperCalls (trace (snd (updateItem "" sampleItem world404)))
     = wrapperCalls (trace world404)) /\
  (wrapperCalls (trace (snd (createItem (mkItemRequest None (Some "d")) world404)))
     = wrapperCalls (trace world404)).
Proof.
  split.
  - apply (proj2 (wrapper_skipped_exactly_when (OpUpdateItem "" sampleItem) world404)).
    reflexivity.
  - apply (proj2 (wrapper_skipped_exactly_when
                    (OpCreateItem (mkItemRequest None (Some "d"))) world404)).
    discriminate.
Defined.

(** X9.  When the bridge resolves the request of an operation, the
    envelope is built from the resolved body alone: [getItems],
    [createItem] and [updateItem] return its [data] property (undefined when
    the body has none) and fail when the body is [null] or [undefined];
    [getStatus] and [healthCheck] return the body whole, whatever it is;
    [deleteItem] returns no data.  The envelope's duration is the time the
    call took. *)
Theorem domain_unwraps_body (op : DomainOp) (w : World) (t : Transport)
    (v : Verb) (p : string) (pl raw : JsVal) (ms : Z) :
  isConnected (apiServiceWrapper w) = true ->
  apiService (apiServiceWrapper w) = Some t ->
  domainRequest op = Some (v, p, pl) ->
  t (transportCalls (trace w)) (bridgeCall v p pl JUndefined) = Resolved raw ms ->
  exists r w',
    runDomainOp op w = (Ok r, w') /\
    timing r = Some (mkTiming (now w) (now w + ms) ms) /\
    match op with
    | OpGetItems | OpCreateItem _ | OpUpdateItem _ _ =>
        if isNullish raw then success r = false /\ data r = None
        else success r = true /\ data r = Some (getProp raw "data")
    | OpDeleteItem _ => success r = true /\ data r = None
    | OpGetStatus | OpHealthCheck => success r = true /\ data r = Some raw
    end.
Proof.
  intros Hi Hs Hreq Hres.
  rewrite (runDomainOp_requested op w v p pl Hreq).
  rewrite (makeRequest_connected v p pl JUndefined w t Hi Hs), Hres.
  eexists; eexists. split; [reflexivity|]. cbn [ar_data now].
  destruct (bodyEnvelope_shape op raw (now w) (now w + ms)) as (Ht & Hu).
  split; [rewrite Ht; f_equal; f_equal; lia|].
  destruct op; simpl in Hu; try destruct (isNullish raw);
    destruct Hu as (? & ? & ?); auto.
Qed.

Lemma domain_unwraps_body_witness :
  (exists r w',
      getItems (setServiceBridge
                  (Some (bridgeResolving
                           (JObj [("data", JStr "items"); ("count", JNum 1)])))
                  (initialWorld quietNetwork)) = (Ok r, w') /\
      success r = true /\ data r = Some (JStr "items")) /\
  (exists r w',
      getItems (setServiceBridge (Some (bridgeResolving JNull))
                  (initialWorld quietNetwork)) = (Ok r, w') /\
      success r = false /\ data r = None) /\
  (exists r w',
      getStatus (setServiceBridge (Some (bridgeResolving JNull))
                   (initialWorld quietNetwork)) = (Ok r, w') /\
      success r = true /\ data r = Some JNull).
Proof.
  split; [|split].
  - destruct (domain_unwraps_body OpGetItems
                (setServiceBridge
                   (Some (bridgeResolving
                            (JObj [("data", JStr "items"); ("count", JNum 1)])))
                   (initialWorld quietNetwork))
                (bridgeResolving (JObj [("data", JStr "items"); ("count", JNum 1)]))
                GET "/api/v1/demo/items" JUndefined
                (JObj [("data", JStr "items"); ("count", JNum 1)]) 7
                eq_refl eq_refl eq_refl eq_refl) as (r & w' & Hr & _ & Hu).
    exists r, w'. split; [exact Hr|exact Hu].
  - destruct (domain_unwraps_body OpGetItems
                (setServiceBridge (Some (bridgeResolving JNull))
                   (initialWorld quietNetwork))
                (bridgeResolving JNull) GET "/api/v1/demo/items" JUndefined JNull 7
                eq_refl eq_refl eq_refl eq_refl) as (r & w' & Hr & _ & Hu).
    exists r, w'. split; [exact Hr|exact Hu].
  - destruct (domain_unwraps_body OpGetStatus
                (setServiceBridge (Some (bridgeResolving JNull))
                   (initialWorld quietNetwork))
                (bridgeResolving JNull) GET "/api/v1/demo/status" JUndefined JNull 7
                eq_refl eq_refl eq_refl eq_refl) as (r & w' & Hr & _ & Hu).
    exists r, w'. split; [exact Hr|exact Hu].
Defined.

Lemma bodyEnvelope_view (op : DomainOp) (raw : JsVal) (s1 e1 s2 e2 : Z) :
  success (bodyEnvelope op raw s1 e1) = success (bodyEnvelope op raw s2 e2) /\
  data (bodyEnvelope op raw s1 e1) = data (bodyEnvelope op raw s2 e2) /\
  error_text (bodyEnvelope op raw s1 e1) = error_text (bodyEnvelope op raw s2 e2).
Proof. unfold bodyEnvelope. destruct (unwrapBody op raw); simpl; auto. Qed.

(** X10.  The services keep nothing that changes the outcome of a repeated
    call: against a bridge whose answers do not depend on the calls it has
    served, the same operation run twice in a row returns two envelopes with
    the same success flag, data and error string; only the timing can
    differ. *)
Theorem repeated_operation_same_envelope (op : DomainOp) (w : World) :
  (forall t, apiService (apiServiceWrapper w) = Some t ->
             forall h h' c, t h c = t h' c) ->
  envelopeView (runDomainOp op (snd (runDomainOp op w))) = envelopeView (runDomainOp op w) /\
  envelopeView (runDomainOp op w) <> None.
Proof.
  intros Hstateless.
  destruct (domainRequest op) as [[[v p] pl]|] eqn:Hreq.
  - rewrite runDomainOp_world, Hreq.
    rewrite (runDomainOp_requested op w v p pl Hreq).
    rewrite (runDomainOp_requested op _ v p pl Hreq).
    destruct (isServiceConnected (apiServiceWrapper w)) eqn:Hc.
    + unfold isServiceConnected in Hc. apply andb_true_iff in Hc as [Hi Hs].
      destruct (apiService (apiServiceWrapper w)) as [t|] eqn:Ht; [|discriminate].
      rewrite (makeRequest_connected v p pl JUndefined w t Hi Ht).
      specialize (Hstateless t eq_refl).
      destruct (t (transportCalls (trace w)) (bridgeCall v p pl JUndefined))
        as [raw ms|e ms] eqn:Ho; cbn [snd];
        match goal with
        | |- context [makeRequest v p pl JUndefined ?w1] =>
            rewrite (makeRequest_connected v p pl JUndefined w1 t eq_refl eq_refl);
            cbn [trace];
            rewrite (Hstateless _ (transportCalls (trace w)) _), Ho
        end; unfold envelopeView; cbn [fst ar_data].
      * destruct (bodyEnvelope_view op raw (now w) (now w + ms)
                    (now w + ms) (now w + ms + ms)) as (H1 & H2 & H3).
        cbn [now]. rewrite H1, H2, H3. split; [reflexivity|discriminate].
      * split; [reflexivity|discriminate].
    + rewrite (makeRequest_not_connected v p pl JUndefined w Hc). cbn [snd].
      rewrite makeRequest_not_connected by exact Hc.
      unfold envelopeView. simpl. split; [reflexivity|discriminate].
  - rewrite runDomainOp_world, Hreq. rewrite (runDomainOp_refused op w Hreq).
    unfold envelopeView. simpl. split; [reflexivity|discriminate].
Qed.

Lemma repeated_operation_same_envelope_witness :
  envelopeView (getStatus (snd (getStatus world404))) = envelopeView (getStatus world404) /\
  envelopeView (getStatus world404) <> None.
Proof.
  apply (repeated_operation_same_envelope OpGetStatus world404).
  intros t [= <-] h h' c. reflexivity.
Defined.

(** X11.  For a request that has a name, [createItem] and
    [validateItemData] agree on the blank name and on nothing else:
    [createItem] returns without calling the wrapper exactly when
    [validateItemData] reports [Name is required]; so a request that
    [validateItemData] accepts is always sent, and so is one it rejects
    only for a length. *)
Theorem createItem_agrees_with_validation (d : ItemRequest) (n : string) (w : World) :
  name d = Some n ->
  ((wrapperCalls (trace (snd (createItem d w))) = wrapperCalls (trace w)) <->
   In "Name is required" (errors (validateItemData d))) /\
  (isValid (validateItemData d) = true ->
   wrapperCalls (trace (snd (createItem d w)))
     = (wrapperCalls (trace w) ++ [(POST, "/api/v1/demo/items")])%list).
Proof.
  intros Hn.
  assert (Hworld : snd (createItem d w) =
                   if nameMissing d then w
                   else snd (makeRequest POST "/api/v1/demo/items" (itemToJs d) JUndefined w)).
  { change (createItem d w) with (runDomainOp (OpCreateItem d) w).
    rewrite runDomainOp_world. simpl. destruct (nameMissing d); reflexivity. }
  assert (Hm : nameMissing d = isEmptyString (trim n))
    by (unfold nameMissing; now rewrite Hn).
  assert (He : nameErrors d =
               if isEmptyString (trim n) then ["Name is required"]
               else if 100 <? strLength n then ["Name must be 100 characters or less"]
               else []) by (unfold nameErrors; now rewrite Hn).
  pose proof (makeRequest_effects POST "/api/v1/demo/items" (itemToJs d) JUndefined w)
    as (Hw & _).
  rewrite Hworld, Hm. unfold validateItemData. cbn [errors isValid]. rewrite He.
  destruct (isEmptyString (trim n)).
  - split; [|discriminate]. split; [intros _; simpl; auto|reflexivity].
  - rewrite Hw. split; [|intros _; reflexivity]. split.
    + intros H. apply (f_equal (@List.length _)) in H.
      rewrite length_app in H. simpl in H. lia.
    + intros H. exfalso.
      destruct (100 <? strLength n); simpl in H;
        destruct (descriptionErrors_cases d) as [[Hd _]|[Hd _]]; rewrite Hd in H;
        simpl in H; repeat destruct H as [H|H]; try discriminate H; exact H.
Qed.

Lemma createItem_agrees_with_validation_witness :
  wrapperCalls (trace (snd (createItem sampleItem world404)))
    = [(POST, "/api/v1/demo/items")].
Proof.
  apply (proj2 (createItem_agrees_with_validation sampleItem "ok" world404 eq_refl)).
  reflexivity.
Defined.

(** * Further properties of the reachability checker *)

Lemma probeTime_bounds (nb : NetBehaviour) :
  probeTime nb <= abortDeadline /\ (wellTimed nb -> 0 <= probeTime nb).
Proof.
  unfold probeTime.
  destruct nb as [status latency|t latency|]; simpl; unfold abortDeadline;
    try destruct (latency <? 10000) eqn:E; simpl;
    try apply Z.ltb_lt in E; try apply Z.ltb_ge in E; split; intros; lia.
Qed.

(** One check, in full: the world it leaves and the verdict it reports. *)
Lemma checkCommunityStatus_model (w : World) :
  let nb := network w (fetchCount (trace w)) in
  exists r cr,
    checkCommunityStatus w =
    (Ok r,
     mkWorld (now w + probeTime nb) (trace w ++ [EvFetch targetUrl])
       (apiServiceWrapper w) (mkExternal (S (checkCount (externalApiService w))))
       (network w)) /\
    data r = Some cr /\
    (cr_status cr, cr_error cr) = probeVerdict nb /\
    cr_url cr = targetUrl /\
    cr_responseTime cr = Some (probeTime nb) /\
    timing r = Some (mkTiming (now w) (now w + probeTime nb) (probeTime nb)) /\
    success r = CheckStatus_eqb (cr_status cr) online /\
    error_text r = cr_error cr /\
    cr_status cr <> checking /\
    (success r = false -> cr_statusCode cr = None).
Proof.
  intros nb. rewrite checkCommunityStatus_run. fold nb.
  unfold probeVerdict, probeTime.
  destruct (settle nb) as [[status|t] ms]; cbn [fst snd].
  - eexists; eexists. split; [reflexivity|]. simpl.
    repeat split; try discriminate.
  - eexists; eexists. split; [reflexivity|]. simpl.
    repeat split; try discriminate;
      destruct t as [ename emessage|e|v]; simpl; try reflexivity; try discriminate;
      destruct (String.eqb ename "AbortError"); simpl; try reflexivity; try discriminate;
      destruct (includes emessage "NetworkError" || includes emessage "Failed to fetch")%bool;
      simpl; try reflexivity; discriminate.
Qed.

(** X12.  The envelope of a check and the result inside it always agree:
    [success] is set exactly when the status is [online], the envelope's
    error string is the result's error text, the result's response time is
    the envelope's duration, the result names the fixed target, its status
    is never [checking], and a failed check has no status code. *)
Theorem check_envelope_agrees_with_result (w : World) :
  exists r cr t w',
    checkCommunityStatus w = (Ok r, w') /\
    data r = Some cr /\ timing r = Some t /\
    success r = CheckStatus_eqb (cr_status cr) online /\
    error_text r = cr_error cr /\
    cr_responseTime cr = Some (duration t) /\
    duration t = endTime t - startTime t /\
    startTime t = now w /\ endTime t = now w' /\
    cr_url cr = "https://community.braindrive.ai/" /\
    cr_status cr <> checking /\
    (if success r then True else cr_statusCode cr = None).
Proof.
  destruct (checkCommunityStatus_model w)
    as (r & cr & Hr & Hd & _ & Hu & Hrt & Ht & Hs & He & Hc & Hn).
  exists r, cr. eexists; eexists. split; [exact Hr|].
  split; [exact Hd|]. split; [exact Ht|]. simpl.
  repeat split; auto; try lia.
  destruct (success r); auto.
Qed.

(** The loop over the real check, in full. *)
Lemma checkLoop_model (intervalMs : Z) (n : nat) :
  forall (i : nat) (acc : list ApiCheckResult) (w : World),
  exists more w',
    checkLoop checkCommunityStatus intervalMs n i acc w = ((acc ++ more, None), w')%list /\
    map (fun cr => (cr_status cr, cr_error cr)) more
      = map (fun k => probeVerdict (network w k)) (seq (fetchCount (trace w)) n) /\
    apiServiceWrapper w' = apiServiceWrapper w /\
    network w' = network w /\
    checkCount (externalApiService w') = (checkCount (externalApiService w) + n)%nat /\
    now w' = now w
             + Z.of_nat (if Nat.eqb i 0 then pred n else n) * Z.max 0 intervalMs
             + sumZ (map (fun k => probeTime (network w k)) (seq (fetchCount (trace w)) n)) /\
    trace w' = (trace w ++ probeSchedule i n intervalMs)%list.
Proof.
  induction n as [|n IH]; intros i acc w.
  - exists [], w. simpl. rewrite !app_nil_r.
    repeat split; auto; destruct (Nat.eqb i 0); simpl; lia.
  - cbn [checkLoop].
    set (w1 := if Nat.ltb 0 i then snd (sleep intervalMs w) else w).
    assert (H1 : trace w1
                 = (trace w ++ (if Nat.ltb 0 i then [EvSleep intervalMs] else []))%list /\
                 apiServiceWrapper w1 = apiServiceWrapper w /\
                 externalApiService w1 = externalApiService w /\
                 network w1 = network w /\
                 now w1 = now w + (if Nat.ltb 0 i then Z.max 0 intervalMs else 0)).
    { subst w1. destruct (Nat.ltb 0 i); simpl; rewrite ?app_nil_r;
        repeat split; auto; lia. }
    destruct H1 as (Ht1 & Hw1 & He1 & Hn1 & Hc1).
    assert (Hf1 : fetchCount (trace w1) = fetchCount (trace w)).
    { rewrite Ht1, fetchCount_app. destruct (Nat.ltb 0 i); simpl; lia. }
    destruct (checkCommunityStatus_model w1)
      as (r & cr & Hr & Hd & Hv & _).
    rewrite Hr, Hd.
    match goal with
    | |- context [checkLoop _ _ n (S i) _ ?w2] =>
        destruct (IH (S i) (acc ++ [cr])%list w2)
          as (more & w' & Hl & Hm & Hw & Hn & Hc & Hnow & Htr)
    end.
    cbn [trace apiServiceWrapper externalApiService network now checkCount] in *.
    assert (Hf2 : fetchCount (trace w1 ++ [EvFetch targetUrl])
                  = S (fetchCount (trace w))).
    { rewrite fetchCount_app, Hf1. simpl. lia. }
    rewrite Hf2 in Hm, Hnow. rewrite Hf1, Hn1 in Hv. rewrite Hn1 in Hm, Hnow.
    exists (cr :: more), w'. split; [|split; [|split; [|split; [|split; [|split]]]]].
    + rewrite Hl. now rewrite <- app_assoc.
    + cbn [seq map]. now rewrite Hv, Hm.
    + congruence.
    + congruence.
    + rewrite Hc, He1. lia.
    + rewrite Hnow, Hf1, Hc1. cbn [seq map].
      unfold sumZ. cbn [fold_right].
      destruct i as [|i]; cbn [Nat.ltb Nat.leb Nat.eqb Nat.pred]; lia.
    + rewrite Htr, Ht1, probeSchedule_step. now rewrite <- !app_assoc.
Qed.

Lemma performMultipleChecks_model (count intervalMs : Z) (w : World) :
  let n := Z.to_nat count in
  exists results w',
    performMultipleChecks count intervalMs w =
    (Ok (mkOperationResult true (Some results) None
           (Some (mkTiming (now w) (now w') (now w' - now w)))), w') /\
    map (fun cr => (cr_status cr, cr_error cr)) results
      = map (fun k => probeVerdict (network w k)) (seq (fetchCount (trace w)) n) /\
    apiServiceWrapper w' = apiServiceWrapper w /\
    network w' = network w /\
    checkCount (externalApiService w') = (checkCount (externalApiService w) + n)%nat /\
    now w' = now w + Z.of_nat (pred n) * Z.max 0 intervalMs
             + sumZ (map (fun k => probeTime (network w k)) (seq (fetchCount (trace w)) n)) /\
    trace w' = (trace w ++ probeSchedule 0 n intervalMs)%list.
Proof.
  intros n.
  unfold performMultipleChecks, performMultipleChecksWith, bind, dateNow. cbv beta iota.
  destruct (checkLoop_model intervalMs n 0 [] w)
    as (more & w' & Hl & Hm & Hw & Hn & Hc & Hnow & Htr).
  fold n. rewrite Hl. simpl. exists more, w'. auto 10.
Qed.

Lemma probeVerdict_online (nb : NetBehaviour) :
  CheckStatus_eqb (fst (probeVerdict nb)) online = respondsInTime nb.
Proof.
  assert (Hc : forall t, CheckStatus_eqb (fst (classifyThrown t)) online = false).
  { intros [ename emessage|e|v]; simpl; try reflexivity.
    destruct (String.eqb ename "AbortError"); [reflexivity|].
    destruct (includes emessage "NetworkError" || includes emessage "Failed to fetch")%bool;
      reflexivity. }
  unfold probeVerdict, respondsInTime.
  destruct nb as [status latency|t latency|]; simpl;
    try destruct (latency <? abortDeadline); simpl; auto.
Qed.

Lemma onlineCount_verdicts (results : list ApiCheckResult) (nbs : list NetBehaviour) :
  map (fun cr => (cr_status cr, cr_error cr)) results = map probeVerdict nbs ->
  onlineCount results = List.length (filter respondsInTime nbs).
Proof.
  unfold onlineCount. revert nbs.
  induction results as [|cr results IH]; intros [|nb nbs] H; try discriminate.
  - reflexivity.
  - simpl in H. injection H as Hv Hrest. simpl.
    rewrite <- probeVerdict_online, <- Hv. simpl.
    destruct (CheckStatus_eqb (cr_status cr) online); simpl; now rewrite (IH nbs Hrest).
Qed.

(** X13.  The results of [performMultipleChecks] come in the order of the
    probes: there is one result per probe, and the k-th has the status and
    error text that the k-th probe sent earns, sleeps and earlier outcomes
    notwithstanding.  The online count of the summary is the number of
    probes the network answered before the deadline. *)
Theorem multiple_checks_in_probe_order (count intervalMs : Z) (w : World) :
  let probes := map (network w) (seq (fetchCount (trace w)) (Z.to_nat count)) in
  exists r results w',
    performMultipleChecks count intervalMs w = (Ok r, w') /\
    data r = Some results /\
    map (fun cr => (cr_status cr, cr_error cr)) results = map probeVerdict probes /\
    onlineCount results = List.length (filter respondsInTime probes) /\
    (onlineCount results <= List.length results)%nat.
Proof.
  intros probes.
  destruct (performMultipleChecks_model count intervalMs w)
    as (results & w' & Hr & Hm & _).
  assert (Hv : map (fun cr => (cr_status cr, cr_error cr)) results
               = map probeVerdict probes)
    by (subst probes; now rewrite map_map).
  eexists; exists results, w'. split; [exact Hr|]. split; [reflexivity|].
  split; [exact Hv|]. split; [now apply onlineCount_verdicts|].
  unfold onlineCount. apply filter_length_le.
Qed.

Lemma sumZ_bounds (f : nat -> Z) (l : list nat) (hi : Z) :
  (forall k, f k <= hi) ->
  sumZ (map f l) <= Z.of_nat (List.length l) * hi /\
  ((forall k, 0 <= f k) -> 0 <= sumZ (map f l)).
Proof.
  intros Hhi. unfold sumZ. induction l as [|k l [IH1 IH2]].
  - simpl. split; intros; lia.
  - cbn [map fold_right List.length]. pose proof (Hhi k). split.
    + lia.
    + intros Hlo. pose proof (Hlo k). specialize (IH2 Hlo). lia.
Qed.

(** X14.  [performMultipleChecks] reports as duration the time that passed
    on the clock from its start to its end, and on a network whose
    latencies are not negative that is never less than the waits between the
    checks: [count - 1] times [intervalMs]. *)
Theorem multiple_checks_elapsed (count intervalMs : Z) (w : World) :
  0 <= intervalMs ->
  let n := Z.to_nat count in
  exists r t w',
    performMultipleChecks count intervalMs w = (Ok r, w') /\
    timing r = Some t /\
    startTime t = now w /\ endTime t = now w' /\
    duration t = now w' - now w /\
    ((forall k, wellTimed (network w k)) ->
     Z.of_nat (pred n) * intervalMs <= duration t).
Proof.
  intros Hiv n.
  destruct (performMultipleChecks_model count intervalMs w)
    as (results & w' & Hr & _ & _ & _ & _ & Hnow & _).
  fold n in Hnow.
  eexists; eexists; exists w'. split; [exact Hr|]. split; [reflexivity|]. simpl.
  split; [reflexivity|]. split; [reflexivity|]. split; [reflexivity|].
  destruct (sumZ_bounds (fun k => probeTime (network w k))
              (seq (fetchCount (trace w)) n) 10000) as [_ Hlo].
  { intros k. apply probeTime_bounds. }
  rewrite Z.max_r in Hnow by exact Hiv.
  intros Hwell.
  assert (0 <= sumZ (map (fun k => probeTime (network w k))
                       (seq (fetchCount (trace w)) n))).
  { apply Hlo. intros k. now apply probeTime_bounds. }
  lia.
Qed.

Lemma multiple_checks_elapsed_witness :
  exists r t w',
    performMultipleChecks 3 100 (initialWorld failingNetwork) = (Ok r, w') /\
    timing r = Some t /\ 200 <= duration t.
Proof.
  destruct (multiple_checks_elapsed 3 100 (initialWorld failingNetwork))
    as (r & t & w' & Hr & Ht & _ & _ & _ & Hlo); [lia|].
  exists r, t, w'. split; [exact Hr|]. split; [exact Ht|].
  apply Hlo. intros k. simpl. lia.
Defined.

(** * Counters and the independence of the two services *)

Lemma probeSchedule_counts (i n : nat) (intervalMs : Z) :
  fetchCount (probeSchedule i n intervalMs) = n /\
  transportCalls (probeSchedule i n intervalMs) = [] /\
  wrapperCalls (probeSchedule i n intervalMs) = [].
Proof.
  revert i. induction n as [|n IH]; intros i; [repeat split|].
  rewrite probeSchedule_step. destruct (IH (S i)) as (Hf & Ht & Hw).
  destruct (Nat.ltb 0 i); simpl; rewrite Hf, Ht, Hw; auto.
Qed.

Lemma makeRequest_suffix (method : Verb) (path : string) (payload options : JsVal)
    (w : World) :
  let w' := snd (makeRequest method path payload options w) in
  exists suffix,
    trace w' = (trace w ++ suffix)%list /\
    requestCount (apiServiceWrapper w')
      = (requestCount (apiServiceWrapper w) + List.length (transportCalls suffix))%nat /\
    fetchCount suffix = 0%nat /\
    externalApiService w' = externalApiService w /\
    network w' = network w.
Proof.
  destruct (isServiceConnected (apiServiceWrapper w)) eqn:Hc.
  - unfold isServiceConnected in Hc. apply andb_true_iff in Hc as [Hi Hs].
    destruct (apiService (apiServiceWrapper w)) as [t|] eqn:Ht; [|discriminate].
    rewrite (makeRequest_connected method path payload options w t Hi Ht).
    destruct (t _ _); simpl; eexists; (split; [reflexivity|]); simpl;
      repeat split; lia.
  - rewrite makeRequest_not_connected by assumption. simpl.
    eexists. split; [reflexivity|]. simpl. repeat split; lia.
Qed.

(** What one call of a client adds to the log, and what it does to the two
    counters. *)
Lemma runAction_effects (a : Action) (w : World) :
  let w' := runAction a w in
  exists suffix,
    trace w' = (trace w ++ suffix)%list /\
    network w' = network w /\
    requestCount (apiServiceWrapper w')
      = (requestCount (apiServiceWrapper w) + List.length (transportCalls suffix))%nat /\
    match a with
    | ActCheck | ActMultipleChecks _ _ =>
        apiServiceWrapper w' = apiServiceWrapper w /\
        transportCalls suffix = [] /\ wrapperCalls suffix = [] /\
        checkCount (externalApiService w')
          = (checkCount (externalApiService w) + fetchCount suffix)%nat
    | ActResetStats =>
        apiServiceWrapper w' = apiServiceWrapper w /\ suffix = [] /\
        checkCount (externalApiService w') = 0%nat
    | _ =>
        fetchCount suffix = 0%nat /\ externalApiService w' = externalApiService w
    end.
Proof.
  destruct a as [service|method path payload options|op| |count intervalMs|];
    cbn [runAction].
  - exists []. simpl. rewrite app_nil_r. repeat split; lia.
  - destruct (makeRequest_suffix method path payload options w)
      as (suffix & Ht & Hr & Hf & He & Hn).
    exists suffix. auto.
  - rewrite runDomainOp_world. destruct (domainRequest op) as [[[v p] pl]|].
    + destruct (makeRequest_suffix v p pl JUndefined w)
        as (suffix & Ht & Hr & Hf & He & Hn).
      exists suffix. auto.
    + exists []. simpl. rewrite app_nil_r. repeat split; lia.
  - destruct (checkCommunityStatus_model w) as (r & cr & Hr & _).
    rewrite Hr. eexists. split; [reflexivity|]. simpl. repeat split; lia.
  - destruct (performMultipleChecks_model count intervalMs w)
      as (results & w' & Hr & _ & Hw & Hn & Hc & _ & Ht).
    rewrite Hr. cbn [snd].
    destruct (probeSchedule_counts 0 (Z.to_nat count) intervalMs) as (Hf & Htc & Hwc).
    eexists. split; [exact Ht|]. rewrite Htc, Hwc, Hf, Hw. simpl.
    repeat split; auto; lia.
  - exists []. simpl. rewrite app_nil_r. repeat split; lia.
Qed.

(** X15.  Whatever a client does, starting from the services as loaded:
    connect, raw requests, demo operations, checks, resets, in any order
    and number, the wrapper's request counter is the number of calls that
    reached a bridge, and the checker's counter is at most the number of
    probes sent, and exactly that number when no reset was made. *)
Theorem counters_count_calls (actions : list Action) (net : nat -> NetBehaviour) :
  let w := runActions actions (initialWorld net) in
  requestCount (apiServiceWrapper w) = List.length (transportCalls (trace w)) /\
  (checkCount (externalApiService w) <= fetchCount (trace w))%nat /\
  (if forallb (fun a => match a with ActResetStats => false | _ => true end) actions
   then checkCount (externalApiService w) = fetchCount (trace w)
   else True).
Proof.
  unfold runActions.
  assert (H : forall actions w,
             requestCount (apiServiceWrapper w) = List.length (transportCalls (trace w)) ->
             (checkCount (externalApiService w) <= fetchCount (trace w))%nat ->
             let w' := fold_left (fun w a => runAction a w) actions w in
             requestCount (apiServiceWrapper w') = List.length (transportCalls (trace w')) /\
             (checkCount (externalApiService w') <= fetchCount (trace w'))%nat /\
             (checkCount (externalApiService w) = fetchCount (trace w) ->
              if forallb (fun a => match a with ActResetStats => false | _ => true end)
                   actions
              then checkCount (externalApiService w') = fetchCount (trace w')
              else True)).
  { clear actions. induction actions as [|a actions IH]; intros w Hr Hc.
    - simpl. auto.
    - cbn [fold_left forallb].
      destruct (runAction_effects a w) as (suffix & Ht & _ & Hreq & Ha).
      assert (Hr' : requestCount (apiServiceWrapper (runAction a w))
                    = List.length (transportCalls (trace (runAction a w)))).
      { rewrite Hreq, Ht, transportCalls_app, length_app. lia. }
      assert (Hc' : (checkCount (externalApiService (runAction a w))
                     <= fetchCount (trace (runAction a w)))%nat /\
                    (checkCount (externalApiService w) = fetchCount (trace w) ->
                     match a with ActResetStats => True | _ =>
                       checkCount (externalApiService (runAction a w))
                       = fetchCount (trace (runAction a w)) end)).
      { rewrite Ht, fetchCount_app.
        destruct a as [service|method path payload options|op| |count intervalMs|];
          cbn [runAction] in *.
        - destruct Ha as (Hf & He). rewrite He. split; intros; lia.
        - destruct Ha as (Hf & He). rewrite He. split; intros; lia.
        - destruct Ha as (Hf & He). rewrite He. split; intros; lia.
        - destruct Ha as (_ & _ & _ & Hk). rewrite Hk. split; intros; lia.
        - destruct Ha as (_ & _ & _ & Hk). rewrite Hk. split; intros; lia.
        - destruct Ha as (_ & _ & Hk). rewrite Hk. split; [lia|auto]. }
      destruct Hc' as [Hc1 Hc2].
      destruct (IH (runAction a w) Hr' Hc1) as (H1 & H2 & H3).
      split; [exact H1|]. split; [exact H2|].
      intros Heq. specialize (Hc2 Heq).
      destruct a; cbn [andb]; try exact I; apply H3; exact Hc2. }
  cbv zeta. destruct (H actions (initialWorld net) eq_refl (le_n 0)) as (H1 & H2 & H3).
  split; [exact H1|]. split; [exact H2|]. apply H3. reflexivity.
Qed.

(** X16.  No call takes anything back: whatever the state, every call of a
    client only appends to the log of calls and leaves the request counter
    where it was or higher; the check counter goes down only by
    [resetStats], which sets it to 0 and touches nothing else. *)
Theorem counters_never_decrease (a : Action) (w : World) :
  let w' := runAction a w in
  (exists suffix, trace w' = (trace w ++ suffix)%list) /\
  (requestCount (apiServiceWrapper w) <= requestCount (apiServiceWrapper w'))%nat /\
  match a with
  | ActResetStats =>
      checkCount (externalApiService w') = 0%nat /\
      apiServiceWrapper w' = apiServiceWrapper w /\
      trace w' = trace w /\ now w' = now w
  | _ => (checkCount (externalApiService w) <= checkCount (externalApiService w'))%nat
  end.
Proof.
  destruct (runAction_effects a w) as (suffix & Ht & _ & Hreq & Ha).
  cbv zeta. split; [now exists suffix|]. split; [lia|].
  destruct a; try (destruct Ha as (_ & ->); lia);
    try (destruct Ha as (_ & _ & _ & ->); lia).
  repeat split.
Qed.

(** X17.  The two services do not touch each other: a check or a run of
    checks never calls the wrapper or a bridge and leaves the wrapper's
    state, its counter included, as it was; a connect, a raw request or a
    demo operation never sends a probe and leaves the checker's counter as
    it was. *)
Theorem services_are_independent (a : Action) (w : World) :
  let w' := runAction a w in
  match a with
  | ActCheck | ActMultipleChecks _ _ =>
      apiServiceWrapper w' = apiServiceWrapper w /\
      transportCalls (trace w') = transportCalls (trace w) /\
      wrapperCalls (trace w') = wrapperCalls (trace w)
  | ActResetStats => apiServiceWrapper w' = apiServiceWrapper w /\ trace w' = trace w
  | _ =>
      externalApiService w' = externalApiService w /\
      fetchCount (trace w') = fetchCount (trace w)
  end.
Proof.
  destruct (runAction_effects a w) as (suffix & Ht & _ & _ & Ha).
  cbv zeta. rewrite Ht.
  destruct a; autorewrite with trace;
    try (destruct Ha as (-> & ->); split; [reflexivity|lia]).
  - destruct Ha as (-> & -> & -> & _). now autorewrite with trace.
  - destruct Ha as (-> & -> & -> & _). now autorewrite with trace.
  - destruct Ha as (-> & -> & _). now autorewrite with trace.
Qed.

(** * Further helpers *)

(** X18.  A repeat count of zero or less makes [performMultipleChecks]
    return at once: a success with an empty list of results, no probe, no
    wait, no time passed and the check counter untouched. *)
Theorem no_checks_for_nonpositive_count (count intervalMs : Z) (w : World) :
  count <= 0 ->
  performMultipleChecks count intervalMs w =
  (Ok (mkOperationResult true (Some []) None (Some (mkTiming (now w) (now w) 0))), w).
Proof.
  intros H.
  unfold performMultipleChecks, performMultipleChecksWith, bind, dateNow. cbv beta iota.
  replace (Z.to_nat count) with 0%nat by lia. simpl.
  now rewrite Z.sub_diag.
Qed.

Lemma no_checks_for_nonpositive_count_witness :
  performMultipleChecks (-2) 100 (initialWorld failingNetwork) =
  (Ok (mkOperationResult true (Some []) None (Some (mkTiming 0 0 0))),
   initialWorld failingNetwork).
Proof.
  apply (no_checks_for_nonpositive_count (-2) 100 (initialWorld failingNetwork)). lia.
Defined.

(** X19.  Every status a check can report has a description of its own:
    the description of the status of a result is always one of the three
    texts for [online], [offline] and [error]; and [getStatusDescription]
    answers [Unknown connectivity status] exactly for the strings that are
    none of the four status names, which it compares letter for letter. *)
Theorem check_status_has_description (w : World) :
  (exists r cr w',
      checkCommunityStatus w = (Ok r, w') /\ data r = Some cr /\
      In (getStatusDescription (statusName (cr_status cr)))
         ["Site is accessible and responding";
          "Site is not accessible or not responding";
          "Error occurred during connectivity test"]) /\
  (forall str,
      getStatusDescription str = "Unknown connectivity status" <->
      forall s, str <> statusName s) /\
  getStatusDescription "Online" = "Unknown connectivity status".
Proof.
  split; [|split; [|reflexivity]].
  - destruct (checkCommunityStatus_model w)
      as (r & cr & Hr & Hd & _ & _ & _ & _ & _ & _ & Hc & _).
    exists r, cr. eexists. split; [exact Hr|]. split; [exact Hd|].
    destruct (cr_status cr); simpl; auto; contradiction.
  - intros str. unfold getStatusDescription. split.
    + intros H s Hs. subst str. destruct s; simpl in H; discriminate.
    + intros H.
      destruct (String.eqb str "online") eqn:E1;
        [apply String.eqb_eq in E1; exfalso; apply (H online E1)|].
      destruct (String.eqb str "offline") eqn:E2;
        [apply String.eqb_eq in E2; exfalso; apply (H offline E2)|].
      destruct (String.eqb str "error") eqn:E3;
        [apply String.eqb_eq in E3; exfalso; apply (H error E3)|].
      destruct (String.eqb str "checking") eqn:E4;
        [apply String.eqb_eq in E4; exfalso; apply (H checking E4)|].
      reflexivity.
Qed.

(** X20.  [extractErrorMessage] never returns an empty text, and an error
    with a non-empty message is always reported by that message, whatever
    response, code or text it has besides: so an error whose message
    mentions a timeout is shown as its own message and not as the timeout
    hint, and every error the wrapper throws is shown as its own message. *)
Theorem extractErrorMessage_message_first (e : RaisedError) (text : string) :
  truthy (extractErrorMessage e text) = true /\
  (forall m, re_message e = Some m -> m <> EmptyString ->
             extractErrorMessage e text = JStr m) /\
  (mentionsTimeout e = true ->
   exists m, re_message e = Some m /\ extractErrorMessage e text = JStr m) /\
  (forall method path payload options w a w',
      makeRequest method path payload options w = (Throw (ThrownApiError a), w') ->
      extractErrorMessage (apiErrorShape a) text = JStr (ae_message a)).
Proof.
  assert (Hfirst : forall e' m, re_message e' = Some m -> m <> EmptyString ->
                                extractErrorMessage e' text = JStr m).
  { intros e' m Hm Hne. unfold extractErrorMessage. rewrite Hm.
    apply String.eqb_neq in Hne. now rewrite Hne. }
  split; [|split; [|split]].
  - unfold extractErrorMessage.
    destruct (re_message e) as [m|]; [destruct (String.eqb m "") eqn:Em|]; cbn [negb];
      try (simpl; now rewrite Em);
      repeat match goal with
        | |- truthy (if ?c then _ else _) = true => destruct c eqn:?
        end; try assumption; try reflexivity;
      simpl; match goal with H : negb _ = true |- _ => exact H end.
  - apply Hfirst.
  - unfold mentionsTimeout. destruct (re_message e) as [m|] eqn:Hm; [|discriminate].
    intros Hi. exists m. split; [reflexivity|]. apply Hfirst; [exact Hm|].
    intros ->. vm_compute in Hi. discriminate Hi.
  - intros method path payload options w a w' H.
    pose proof (makeRequest_outcome method path payload options w) as Ho.
    rewrite H in Ho. simpl in Ho.
    destruct Ho as [[response Ho]|(a' & Ho & Hne & _)]; [discriminate|].
    injection Ho as <-. apply Hfirst; [reflexivity|exact Hne].
Qed.

Lemma extractErrorMessage_message_first_witness :
  extractErrorMessage errorTimeoutExceeded "Error: timeout of 5000ms exceeded"
    = JStr "timeout of 5000ms exceeded" /\
  extractErrorMessage error404WithDetail "Error: Request failed with status code 404"
    = JStr "Request failed with status code 404".
Proof.
  split.
  - destruct (proj1 (proj2 (proj2 (extractErrorMessage_message_first errorTimeoutExceeded
                "Error: timeout of 5000ms exceeded"))) eq_refl) as (m & [= <-] & H).
    exact H.
  - apply (proj1 (proj2 (extractErrorMessage_message_first error404WithDetail
             "Error: Request failed with status code 404"))).
    + reflexivity.
    + discriminate.
Defined.
